(** * ClimateChic land analysis

    A shallow embedding of [climatechic_mvp_poc.py]: the module tables
    [FLORA_DATABASE] and [BIOGEO_REGIONS_GDF], the analysis [analyze_land]
    and the report builder [generate_plan_report].

    Conventions of the embedding.
    - Python [float]s are exact rationals ([Q]); binary64 rounding error is
      not modelled.  Python [int]s are [Z].
    - The geometry engine (shapely, reached through geopandas) is not part
      of the analysed module: it is an interface, [Geometry], with the
      operations the module calls.  Its expected properties are a second
      interface, [GeometryLaws].  [Lattice] is an executable instance.
    - Module globals live in a [World]; [analyze_land] runs in a state and
      exception monad over it. *)

From Stdlib Require Import ZArith QArith Qround Qabs Lqa Lia List String Ascii DecimalString.
From stdpp Require Import base option list strings gmap.

Local Open Scope Z_scope.

(** ** Python values and built-ins *)

Module Py.

Inductive exn : Type :=
| ZeroDivisionError.

Inductive result (A : Type) : Type :=
| Ok (a : A)
| Raise (e : exn).
Arguments Ok {A} a.
Arguments Raise {A} e.

(** A number is an [int] or a [float]; [max_overlap] starts as the
    [int] 0 and becomes a [float] once a region is selected. *)
Inductive num : Type :=
| Int (z : Z)
| Float (q : Q).

Definition to_Q (v : num) : Q :=
  match v with
  | Int z => inject_Z z
  | Float q => q
  end.

(** [a / b] on floats. *)
Definition truediv (a b : Q) : result Q :=
  if Qeq_bool b 0 then Raise ZeroDivisionError else Ok (a / b)%Q.

(** [a > b], numeric comparison across [int] and [float]. *)
Definition gt (a b : num) : bool :=
  match (to_Q a ?= to_Q b)%Q with
  | Gt => true
  | _ => false
  end.

(** [int(x)] on a float: truncation toward zero. *)
Definition int (x : Q) : Z := Z.quot (Qnum x) (Zpos (Qden x)).

(** Nearest integer, ties to the even one. *)
Definition round_half_even (x : Q) : Z :=
  let f := Qfloor x in
  match (x - inject_Z f ?= 1 # 2)%Q with
  | Lt => f
  | Gt => f + 1
  | Eq => if Z.even f then f else f + 1
  end.

(** [round(x, ndigits)] on a float, in lowest terms. *)
Definition round_float (x : Q) (ndigits : nat) : Q :=
  Qred (round_half_even (x * inject_Z (10 ^ Z.of_nat ndigits))
        # Z.to_pos (10 ^ Z.of_nat ndigits)).

(** [round(v, ndigits)]: an [int] stays the same [int] for
    [ndigits >= 0]; a [float] is rounded to a [float]. *)
Definition round (v : num) (ndigits : nat) : num :=
  match v with
  | Int z => Int z
  | Float q => Float (round_float q ndigits)
  end.

(** [str] of an [int]. *)
Definition str_int (z : Z) : string := NilZero.string_of_int (Z.to_int z).

Definition digit (d : Z) : ascii := ascii_of_nat (48 + Z.to_nat d).

(** Fractional digits of [r / den] (with [0 <= r < den]), stopping when
    the expansion terminates. *)
Fixpoint frac_digits (fuel : nat) (r den : Z) : string :=
  match fuel with
  | O => EmptyString
  | S fuel' =>
      let d := (10 * r) / den in
      let r' := (10 * r) mod den in
      String (digit d)
        (if r' =? 0 then EmptyString else frac_digits fuel' r' den)
  end.

(** [str] of a [float] whose value is a short decimal of magnitude below
    1e16 (what [round] returns here): the shortest decimal numeral, with
    at least one fractional digit. *)
Definition str_float (q : Q) : string :=
  let n := Qnum q in
  let d := Zpos (Qden q) in
  let sign := if n <? 0 then "-"%string else EmptyString in
  (sign ++ str_int (Z.abs (Z.quot n d))
     ++ "." ++ frac_digits 17 (Z.abs (Z.rem n d)) d)%string.

(** [str(v)], as an f-string field renders it. *)
Definition str (v : num) : string :=
  match v with
  | Int z => str_int z
  | Float q => str_float q
  end.

(** [s.split(sep)[0]]: the part of [s] before the first occurrence of
    [sep], all of [s] when there is none. *)
Fixpoint split_head (sep s : string) : string :=
  match s with
  | EmptyString => EmptyString
  | String c s' =>
      if String.prefix sep s then EmptyString
      else String c (split_head sep s')
  end.

(** Truth value of [s] for [s : str | None]. *)
Definition truthy (s : option string) : bool :=
  match s with
  | Some (String _ _) => true
  | _ => false
  end.

End Py.

Import Py.

(** ** The geometry engine

    The operations of shapely and geopandas that the module calls.  The
    names are the library's.  The operations are total here: the
    exceptions the engine raises on malformed rings are not modelled. *)

Module Shapely.

Class Geometry : Type := {
  geom : Type;
  (** [Polygon(shell)], from the ring of [(x, y)] coordinates *)
  Polygon : list (Q * Q) -> geom;
  (** [GeoSeries.union_all()] *)
  union_all : list geom -> geom;
  (** [a.intersects(b)] *)
  intersects : geom -> geom -> bool;
  (** [a.intersection(b)] *)
  intersection : geom -> geom -> geom;
  (** [a.area] *)
  area : geom -> Q
}.

Definition sum_area `{Geometry} (pieces : list geom) : Q :=
  fold_right (fun p acc => (area p + acc)%Q) 0%Q pieces.

(** No two pieces of the list share a point. *)
Definition pairwise_disjoint `{Geometry} (pieces : list geom) : Prop :=
  ForallOrdPairs (fun p q => intersects p q = false) pieces.

(** What the engine guarantees on well-formed geometries: areas are not
    negative, an intersection is no larger than what it is cut from, and
    the area of a union of disjoint pieces is the sum of their areas. *)
Class GeometryLaws (G : Geometry) : Prop := {
  area_nonneg : forall g : geom, (0 <= area g)%Q;
  area_intersection_le :
    forall a b : geom, (area (intersection a b) <= area a)%Q;
  area_union_all_disjoint :
    forall pieces : list geom,
      pairwise_disjoint pieces ->
      (area (union_all pieces) == sum_area pieces)%Q
}.

End Shapely.

(** ** Data model *)

(** An entry of a flora list: a dict with these three keys. *)
Record FloraEntry : Type := {
  name : string;
  type : string;
  chicken_benefit : string
}.

(** [plan['simulation']] *)
Record Simulation : Type := {
  land_area_hectares : num;
  estimated_trees_year_5 : Z;
  estimated_chickens_year_2 : Z;
  black_soldier_fly_production_kg_week : Z;
  region_overlap_percentage : num
}.

(** The dict [plan] that [analyze_land] returns. *)
Record Plan : Type := {
  biogeographic_region : string;
  recommended_flora : list FloraEntry;
  simulation : Simulation
}.

Section Analysis.

Context {G : Shapely.Geometry}.

(** A row of [BIOGEO_REGIONS_GDF]: columns ['name'] and ['geometry']. *)
Record Region : Type := {
  row_name : string;
  row_geometry : Shapely.geom
}.

(** Module state: the two global tables and what was printed. *)
Record World : Type := {
  g_FLORA_DATABASE : gmap string (list FloraEntry);
  g_BIOGEO_REGIONS_GDF : list Region;
  stdout : list string
}.

(** *** State and exception monad over the module state *)

Definition M (A : Type) : Type := World -> result A * World.

#[global] Instance M_ret : MRet M := fun A a w => (Ok a, w).

#[global] Instance M_bind : MBind M := fun A B k m w =>
  match m w with
  | (Ok a, w') => k a w'
  | (Raise e, w') => (Raise e, w')
  end.

Definition global {A} (field : World -> A) : M A := fun w => (Ok (field w), w).

Definition lift {A} (r : result A) : M A := fun w => (r, w).

(** *** The analysis *)

(** One pass of the loop body's arithmetic:
    [(overlap_area / boundary_geom.area) * 100]. *)
Definition overlap_percentage (boundary_geom region_geom : Shapely.geom)
  : result Q :=
  let overlap_area :=
    Shapely.area (Shapely.intersection boundary_geom region_geom) in
  match truediv overlap_area (Shapely.area boundary_geom) with
  | Ok d => Ok (d * 100)%Q
  | Raise e => Raise e
  end.

(** The [for idx, region in BIOGEO_REGIONS_GDF.iterrows()] loop, with the
    two variables it updates. *)
Fixpoint region_analysis (boundary_geom : Shapely.geom) (rows : list Region)
    (intersected_region : option string) (max_overlap : num)
  : result (option string * num) :=
  match rows with
  | [] => Ok (intersected_region, max_overlap)
  | region :: rows' =>
      if Shapely.intersects boundary_geom (row_geometry region) then
        match overlap_percentage boundary_geom (row_geometry region) with
        | Raise e => Raise e
        | Ok pct =>
            if gt (Float pct) max_overlap
            then region_analysis boundary_geom rows'
                   (Some (row_name region)) (Float pct)
            else region_analysis boundary_geom rows'
                   intersected_region max_overlap
        end
      else region_analysis boundary_geom rows' intersected_region max_overlap
  end.

Definition analyze_land (boundary_gdf : list Shapely.geom) : M Plan :=
  let boundary_geom := Shapely.union_all boundary_gdf in
  rows ← global g_BIOGEO_REGIONS_GDF;
  found ← lift (region_analysis boundary_geom rows None (Int 0));
  let intersected_region := fst found in
  let max_overlap := snd found in
  let region_key :=
    if truthy intersected_region
    then split_head "_Region" (default EmptyString intersected_region)
    else "Tropical_Savanna"%string in
  flora_db ← global g_FLORA_DATABASE;
  let area_hectares := (Shapely.area boundary_geom * 10000)%Q in
  mret {| biogeographic_region := region_key;
          recommended_flora := default [] (flora_db !! region_key);
          simulation :=
            {| land_area_hectares := round (Float area_hectares) 2;
               estimated_trees_year_5 := int (area_hectares * 100)%Q;
               estimated_chickens_year_2 := int (area_hectares * 50)%Q;
               black_soldier_fly_production_kg_week :=
                 int (area_hectares * 2)%Q;
               region_overlap_percentage := round max_overlap 1 |} |}.

(** *** The module's tables *)

Definition FLORA_DATABASE : gmap string (list FloraEntry) :=
  {[ "Tropical_Rainforest"%string :=
       [ {| name := "Leucaena leucocephala"; type := "Tree";
            chicken_benefit := "High-protein forage, shade" |};
         {| name := "Moringa oleifera"; type := "Tree";
            chicken_benefit := "Vitamins, minerals, forage" |};
         {| name := "Paspalum notatum"; type := "Grass";
            chicken_benefit := "Ground cover, forage" |} ];
     "Tropical_Savanna"%string :=
       [ {| name := "Acacia tortilis"; type := "Tree";
            chicken_benefit := "Shade, pods for forage" |};
         {| name := "Cenchrus ciliaris"; type := "Grass";
            chicken_benefit := "Drought-resistant forage" |} ] ]}.

Definition rainforest_ring : list (Q * Q) :=
  [ (33.5, -1.5); (35.5, -1.5); (35.5, 1.5); (33.5, 1.5); (33.5, -1.5) ]%Q.

Definition savanna_ring : list (Q * Q) :=
  [ (36.0, -2.0); (38.0, -2.0); (38.0, 0.5); (36.0, 0.5); (36.0, -2.0) ]%Q.

Definition BIOGEO_REGIONS_GDF : list Region :=
  [ {| row_name := "Tropical_Rainforest_Region";
       row_geometry := Shapely.Polygon rainforest_ring |};
    {| row_name := "Tropical_Savanna_Region";
       row_geometry := Shapely.Polygon savanna_ring |} ].

(** The state once the module is loaded; the banner is the line the
    module prints on import (its leading pictograph left out). *)
Definition module_world : World :=
  {| g_FLORA_DATABASE := FLORA_DATABASE;
     g_BIOGEO_REGIONS_GDF := BIOGEO_REGIONS_GDF;
     stdout := [ "Starting ClimateChic MVP Simulation (Local Machine)"%string ] |}.

End Analysis.

Arguments Region : clear implicits.
Arguments World : clear implicits.

(** ** The report *)

Definition nl : string := String (ascii_of_nat 10) EmptyString.

(** One pass of the flora loop: the line appended to [report]. *)
Definition flora_line (flora : FloraEntry) : string :=
  ("* " ++ name flora ++ " (" ++ type flora ++ ") - "
     ++ chicken_benefit flora ++ nl)%string.

Definition report_head (plan : Plan) : string :=
  ("CLIMATECHIC RESTORATION PLAN" ++ nl
   ++ "==================================================" ++ nl
   ++ "Region: " ++ biogeographic_region plan ++ nl
   ++ "Area: " ++ str (land_area_hectares (simulation plan)) ++ " hectares" ++ nl
   ++ "Region Overlap: "
   ++ str (region_overlap_percentage (simulation plan)) ++ "%" ++ nl
   ++ nl
   ++ "RECOMMENDED FLORA:" ++ nl)%string.

Definition report_tail (plan : Plan) : string :=
  (nl
   ++ "PROJECTIONS:" ++ nl
   ++ "* Trees (Year 5): "
   ++ str_int (estimated_trees_year_5 (simulation plan)) ++ nl
   ++ "* Chickens (Year 2): "
   ++ str_int (estimated_chickens_year_2 (simulation plan)) ++ nl
   ++ "* BSF Production: "
   ++ str_int (black_soldier_fly_production_kg_week (simulation plan))
   ++ " kg/week" ++ nl
   ++ nl
   ++ "OPERATIONAL GUIDELINES:" ++ nl
   ++ "* Months 1-3: Soil preparation and pioneer species planting" ++ nl
   ++ "* Months 4-6: Introduce nitrogen-fixing plants and cover crops" ++ nl
   ++ "* Months 7-12: Establish poultry infrastructure and initial flock" ++ nl
   ++ "* Year 2: Scale integrated systems and value-added production" ++ nl)%string.

(** [report] is started from the first f-string, grown by [+=] once per
    flora entry, and closed by the second f-string. *)
Definition generate_plan_report (plan : Plan) : string :=
  let report := report_head plan in
  let report :=
    fold_left (fun report flora => (report ++ flora_line flora)%string)
      (recommended_flora plan) report in
  (report ++ report_tail plan)%string.

(** ** An executable geometry: boxes on the half-degree lattice

    A geometry is a finite union of closed axis-parallel boxes whose
    corners lie on the lattice of half degrees; a box with an empty
    interior is a segment or a point.  Coordinates are counted in half
    degrees, and the area is the number of lattice cells covered, a quarter
    of a square degree each.  The tables of the module and the boundaries
    used as examples below are of this kind. *)

Module Lattice.

Record box : Type := { x0 : Z; y0 : Z; x1 : Z; y1 : Z }.

Definition zrange (a b : Z) : list Z :=
  (fun k => a + Z.of_nat k) <$> seq 0 (Z.to_nat (b - a)).

(** The cells of a box, each named by its lower left corner. *)
Definition box_cells (b : box) : gset (Z * Z) :=
  list_to_set (list_prod (zrange (x0 b) (x1 b)) (zrange (y0 b) (y1 b))).

Definition cells (g : list box) : gset (Z * Z) := ⋃ (box_cells <$> g).

Definition area (g : list box) : Q := Z.of_nat (size (cells g)) # 4.

Definition meet (a b : box) : box :=
  {| x0 := Z.max (x0 a) (x0 b); y0 := Z.max (y0 a) (y0 b);
     x1 := Z.min (x1 a) (x1 b); y1 := Z.min (y1 a) (y1 b) |}.

(** The closed box has a point. *)
Definition nonempty (b : box) : bool := (x0 b <=? x1 b) && (y0 b <=? y1 b).

Definition intersects (g h : list box) : bool :=
  existsb (fun a => existsb (fun b => nonempty (meet a b)) h) g.

Definition intersection (g h : list box) : list box :=
  a ← g; b ← h; if nonempty (meet a b) then [meet a b] else [].

Definition union_all (pieces : list (list box)) : list box := concat pieces.

Definition grow (b : box) (p : Q * Q) : box :=
  {| x0 := Z.min (x0 b) (Qfloor (fst p * 2));
     y0 := Z.min (y0 b) (Qfloor (snd p * 2));
     x1 := Z.max (x1 b) (Qceiling (fst p * 2));
     y1 := Z.max (y1 b) (Qceiling (snd p * 2)) |}.

(** The box spanned by a ring: the polygon itself when the ring is a
    lattice rectangle or lies on a lattice line. *)
Definition Polygon (ring : list (Q * Q)) : list box :=
  match ring with
  | [] => []
  | p :: ring' =>
      [ fold_left grow ring'
          {| x0 := Qfloor (fst p * 2); y0 := Qfloor (snd p * 2);
             x1 := Qceiling (fst p * 2); y1 := Qceiling (snd p * 2) |} ]
  end.

#[export] Instance geometry : Shapely.Geometry :=
  {| Shapely.geom := list box;
     Shapely.Polygon := Polygon;
     Shapely.union_all := union_all;
     Shapely.intersects := intersects;
     Shapely.intersection := intersection;
     Shapely.area := area |}.

End Lattice.

(** ** Vocabulary of the specification *)

(** [z] is [x] with its fractional part dropped: the integer next to [x]
    on the side of zero. *)
Definition trunc_toward_zero (x : Q) (z : Z) : Prop :=
  ((0 <= x)%Q -> (inject_Z z <= x)%Q /\ (x < inject_Z (z + 1))%Q) /\
  ((x <= 0)%Q -> (inject_Z (z - 1) < x)%Q /\ (x <= inject_Z z)%Q).

(** The overlap of a region as the specification words it:
    intersection area over boundary area, times one hundred. *)
Definition overlap_formula `{Shapely.Geometry}
    (boundary_geom region_geom : Shapely.geom) : Q :=
  (Shapely.area (Shapely.intersection boundary_geom region_geom)
   / Shapely.area boundary_geom * 100)%Q.

(** The biome key that [analyze_land] derives from the name the loop
    selected: the name up to its first [_Region], or the default key when
    no name (or an empty one) was selected. *)
Definition region_key_of (intersected_region : option string) : string :=
  if truthy intersected_region
  then split_head "_Region" (default EmptyString intersected_region)
  else "Tropical_Savanna"%string.

(** The [simulation] entry that [analyze_land] builds from the area of the
    merged geometry and the greatest overlap. *)
Definition simulate (boundary_area : Q) (max_overlap : num) : Simulation :=
  {| land_area_hectares := round (Float (boundary_area * 10000)) 2;
     estimated_trees_year_5 := int (boundary_area * 10000 * 100)%Q;
     estimated_chickens_year_2 := int (boundary_area * 10000 * 50)%Q;
     black_soldier_fly_production_kg_week := int (boundary_area * 10000 * 2)%Q;
     region_overlap_percentage := round max_overlap 1 |}.

(** The plan built once the region loop has left [found] in its two
    variables. *)
Definition plan_of `{G : Shapely.Geometry} (w : World G)
    (boundary_geom : Shapely.geom) (found : option string * num) : Plan :=
  {| biogeographic_region := region_key_of (fst found);
     recommended_flora :=
       default [] (g_FLORA_DATABASE w !! region_key_of (fst found));
     simulation := simulate (Shapely.area boundary_geom) (snd found) |}.








(** ** Sample boundaries on the lattice *)

Module Samples.

Import Lattice.

Definition world : World Lattice.geometry := module_world.

Definition first_region : @Shapely.geom Lattice.geometry :=
  Shapely.Polygon rainforest_ring.

Definition second_region : @Shapely.geom Lattice.geometry :=
  Shapely.Polygon savanna_ring.

Definition first_row : Region Lattice.geometry :=
  {| row_name := "Tropical_Rainforest_Region"; row_geometry := first_region |}.

Definition second_row : Region Lattice.geometry :=
  {| row_name := "Tropical_Savanna_Region"; row_geometry := second_region |}.

(** A one degree square inside the first region. *)
Definition unit_square : list (@Shapely.geom Lattice.geometry) :=
  [ Shapely.Polygon [ (34, 0); (35, 0); (35, 1); (34, 1); (34, 0) ]%Q ].

(** A ring whose points all lie on one line, away from both regions. *)
Definition collinear_far : list (@Shapely.geom Lattice.geometry) :=
  [ Shapely.Polygon [ (0, 0); (1, 0); (2, 0); (0, 0) ]%Q ].

(** A ring whose points all lie on one line, inside the first region. *)
Definition collinear_inside : list (@Shapely.geom Lattice.geometry) :=
  [ Shapely.Polygon [ (34, 0); (35, 0); (34, 0) ]%Q ].

(** A rectangle left of the first region, sharing its edge x = 33.5. *)
Definition touching : list (@Shapely.geom Lattice.geometry) :=
  [ Shapely.Polygon
      [ (32.5, -1); (33.5, -1); (33.5, 1); (32.5, 1); (32.5, -1) ]%Q ].

(** A rectangle across the gap between the regions, with half a square
    degree in each. *)
Definition straddling : list (@Shapely.geom Lattice.geometry) :=
  [ Shapely.Polygon
      [ (35, -1); (36.5, -1); (36.5, 0); (35, 0); (35, -1) ]%Q ].


(** The module state with an empty flora table. *)
Definition world_without_flora : World Lattice.geometry :=
  {| g_FLORA_DATABASE := ∅;
     g_BIOGEO_REGIONS_GDF := BIOGEO_REGIONS_GDF;
     stdout := [] |}.

(** The module state with nothing printed. *)
Definition quiet_world : World Lattice.geometry :=
  {| g_FLORA_DATABASE := FLORA_DATABASE;
     g_BIOGEO_REGIONS_GDF := BIOGEO_REGIONS_GDF;
     stdout := [] |}.

(** The plan of [unit_square]. *)
Definition unit_square_plan : Plan :=
  {| biogeographic_region := "Tropical_Rainforest";
     recommended_flora :=
       [ {| name := "Leucaena leucocephala"; type := "Tree";
            chicken_benefit := "High-protein forage, shade" |};
         {| name := "Moringa oleifera"; type := "Tree";
            chicken_benefit := "Vitamins, minerals, forage" |};
         {| name := "Paspalum notatum"; type := "Grass";
            chicken_benefit := "Ground cover, forage" |} ];
     simulation :=
       {| land_area_hectares := Float 10000;
          estimated_trees_year_5 := 1000000;
          estimated_chickens_year_2 := 500000;
          black_soldier_fly_production_kg_week := 20000;
          region_overlap_percentage := Float 100 |} |}.

End Samples.

(** ** More string methods *)

Module PyStr.

(** [sub in s] *)
Fixpoint contains (sub s : string) : bool :=
  String.prefix sub s ||
  match s with
  | EmptyString => false
  | String _ s' => contains sub s'
  end.

(** The character [c] is one of the characters of [s]. *)
Fixpoint has_char (c : ascii) (s : string) : bool :=
  match s with
  | EmptyString => false
  | String d s' => Ascii.eqb c d || has_char c s'
  end.

(** The scan of [s.replace(old, new)] for a non-empty [old]: [skip]
    counts the characters of a matched occurrence still to be passed. *)
Fixpoint replace_from (old new : string) (skip : nat) (s : string) : string :=
  match s with
  | EmptyString => EmptyString
  | String c s' =>
      match skip with
      | S skip' => replace_from old new skip' s'
      | O =>
          if String.prefix old s
          then (new ++ replace_from old new (String.length old - 1) s')%string
          else String c (replace_from old new 0 s')
      end
  end.

(** [new] after every character of [s]. *)
Fixpoint intersperse (new s : string) : string :=
  match s with
  | EmptyString => EmptyString
  | String c s' => String c (new ++ intersperse new s')%string
  end.

(** [s.replace(old, new)]: every occurrence of [old], from the left and
    without overlap, becomes [new]; an empty [old] matches before every
    character and at the end. *)
Definition replace (old new s : string) : string :=
  match old with
  | EmptyString => (new ++ intersperse new s)%string
  | String _ _ => replace_from old new 0 s
  end.

End PyStr.

(** ** The command line driver

    [process_geojson_file] reads a boundary file, analyses it, and writes
    and prints the report.  What it needs from outside the module is an
    interface, [Runtime]: the file system as geopandas and [open] see it,
    the text of an exception and of its traceback. *)

Module Driver.

(** What the [try] block can be left with: an exception of
    [analyze_land], or one raised by geopandas or by the file system,
    known by its message. *)
Inductive failure : Type :=
| Uncaught (e : exn)
| External (message : string).

Inductive outcome (A : Type) : Type :=
| Done (a : A)
| Failed (f : failure).
Arguments Done {A} a.
Arguments Failed {A} f.

Class Runtime (G : Shapely.Geometry) : Type := {
  files : Type;
  (** [gpd.read_file(path).geometry], or the message of the exception *)
  read_file : files -> string -> string + list Shapely.geom;
  (** [open(path, 'w', encoding='utf-8')] and [f.write(text)]: the
      message of the exception if one is raised, and the files after *)
  write_text : files -> string -> string -> option string * files;
  (** the text a file holds, if the file exists *)
  file_text : files -> string -> option string;
  (** [str(e)] *)
  exn_message : exn -> string;
  (** what [traceback.print_exc()] writes for the exception handled *)
  format_exc : failure -> string
}.

(** A file written without an exception holds the text written, and the
    other files are as they were. *)
Class RuntimeLaws {G : Shapely.Geometry} (R : Runtime G) : Prop := {
  write_then_read :
    forall (f f' : files) (path text : string),
      write_text f path text = (None, f') ->
      file_text f' path = Some text;
  write_keeps_others :
    forall (f f' : files) (path text other : string),
      write_text f path text = (None, f') ->
      other <> path ->
      file_text f' other = file_text f other
}.

Section Process.

Context {G : Shapely.Geometry} {R : Runtime G}.

(** The process: the module state, the files, and the error stream. *)
Record Host : Type := {
  host_world : World G;
  host_files : files;
  stderr : list string
}.

Definition HostM (A : Type) : Type := Host -> outcome A * Host.

#[global] Instance HostM_ret : MRet HostM := fun A a h => (Done a, h).

#[global] Instance HostM_bind : MBind HostM := fun A B k m h =>
  match m h with
  | (Done a, h') => k a h'
  | (Failed f, h') => (Failed f, h')
  end.

(** [print(line)] *)
Definition print (line : string) : HostM unit := fun h =>
  (Done tt,
   {| host_world :=
        {| g_FLORA_DATABASE := g_FLORA_DATABASE (host_world h);
           g_BIOGEO_REGIONS_GDF := g_BIOGEO_REGIONS_GDF (host_world h);
           stdout := stdout (host_world h) ++ [line] |};
      host_files := host_files h;
      stderr := stderr h |}).

(** [traceback.print_exc()] *)
Definition print_exc (f : failure) : HostM unit := fun h =>
  (Done tt,
   {| host_world := host_world h;
      host_files := host_files h;
      stderr := stderr h ++ [format_exc f] |}).

(** [gpd.read_file(geojson_path)] *)
Definition gpd_read_file (geojson_path : string)
  : HostM (list Shapely.geom) := fun h =>
  match read_file (host_files h) geojson_path with
  | inr boundary_gdf => (Done boundary_gdf, h)
  | inl message => (Failed (External message), h)
  end.

(** The call [analyze_land(boundary_gdf)] inside the process. *)
Definition call_analyze_land (boundary_gdf : list Shapely.geom)
  : HostM Plan := fun h =>
  match analyze_land boundary_gdf (host_world h) with
  | (Ok plan, w) =>
      (Done plan,
       {| host_world := w; host_files := host_files h;
          stderr := stderr h |})
  | (Raise e, w) =>
      (Failed (Uncaught e),
       {| host_world := w; host_files := host_files h;
          stderr := stderr h |})
  end.

(** [with open(path, 'w', encoding='utf-8') as f: f.write(text)] *)
Definition open_write (path text : string) : HostM unit := fun h =>
  match write_text (host_files h) path text with
  | (None, files') =>
      (Done tt,
       {| host_world := host_world h; host_files := files';
          stderr := stderr h |})
  | (Some message, files') =>
      (Failed (External message),
       {| host_world := host_world h; host_files := files';
          stderr := stderr h |})
  end.

(** [try: body  except Exception as e: handler(e)] *)
Definition try_except (body : HostM unit) (handler : failure -> HostM unit)
  : HostM unit := fun h =>
  match body h with
  | (Done a, h') => (Done a, h')
  | (Failed f, h') => handler f h'
  end.

(** [str(e)] for what the handler catches. *)
Definition failure_message (f : failure) : string :=
  match f with
  | Uncaught e => exn_message e
  | External message => message
  end.

(** ["="*50] *)
Definition rule : string :=
  "==================================================".

Definition process_geojson_file (geojson_path : string) : HostM unit :=
  try_except
    (print ("Processing: " ++ geojson_path) ;;
     boundary_gdf ← gpd_read_file geojson_path;
     restoration_plan ← call_analyze_land boundary_gdf;
     let report := generate_plan_report restoration_plan in
     let report_filename :=
       PyStr.replace ".geojson" "_report.txt" geojson_path in
     open_write report_filename report ;;
     print ("Analysis complete! Report saved: " ++ report_filename) ;;
     print (nl ++ rule) ;;
     print report ;;
     print rule)
    (fun e =>
       print ("Error processing file: " ++ failure_message e) ;;
       print_exc e).

(** The process after the handler has run for the exception [f]: two
    lines printed, the traceback on the error stream, and the files
    as the [try] block left them. *)
Definition after_failure (h : Host) (geojson_path : string)
    (f : failure) (files' : files) : Host :=
  {| host_world :=
       {| g_FLORA_DATABASE := g_FLORA_DATABASE (host_world h);
          g_BIOGEO_REGIONS_GDF := g_BIOGEO_REGIONS_GDF (host_world h);
          stdout :=
            stdout (host_world h)
            ++ [ "Processing: " ++ geojson_path;
                 "Error processing file: " ++ failure_message f ]%string |};
     host_files := files';
     stderr := stderr h ++ [format_exc f] |}.

(** The process after the [try] block has run to its end: the report
    written, and five lines printed. *)
Definition after_success (h : Host) (geojson_path report : string)
    (files' : files) : Host :=
  {| host_world :=
       {| g_FLORA_DATABASE := g_FLORA_DATABASE (host_world h);
          g_BIOGEO_REGIONS_GDF := g_BIOGEO_REGIONS_GDF (host_world h);
          stdout :=
            stdout (host_world h)
            ++ [ "Processing: " ++ geojson_path;
                 "Analysis complete! Report saved: "
                   ++ PyStr.replace ".geojson" "_report.txt" geojson_path;
                 nl ++ rule;
                 report;
                 rule ]%string |};
     host_files := files';
     stderr := stderr h |}.

End Process.

Arguments Host G {R}.

End Driver.

(** ** More sample inputs on the lattice *)

Module MoreSamples.

(** A rectangle with one square degree in the first region and half a
    square degree in the second. *)
Definition leaning : list (@Shapely.geom Lattice.geometry) :=
  [ Shapely.Polygon
      [ (34.5, -1); (36.5, -1); (36.5, 0); (34.5, 0); (34.5, -1) ]%Q ].

(** The module state with the two rows of the region table swapped. *)
Definition swapped_world : World Lattice.geometry :=
  {| g_FLORA_DATABASE := FLORA_DATABASE;
     g_BIOGEO_REGIONS_GDF := [ Samples.second_row; Samples.first_row ];
     stdout := [] |}.

(** The module state with another name for the first region. *)
Definition renamed_world (region_name : string) : World Lattice.geometry :=
  {| g_FLORA_DATABASE := FLORA_DATABASE;
     g_BIOGEO_REGIONS_GDF :=
       [ {| row_name := region_name;
            row_geometry := Samples.first_region |};
         Samples.second_row ];
     stdout := [] |}.

End MoreSamples.

(** ** Files in memory

    A [Runtime] whose files are a map from paths to texts.  [decode] says
    what geopandas reads from a text; opening the empty path fails. *)

Module Memory.

Section WithDecoder.

Context {G : Shapely.Geometry}.
Variable decode : string -> option (list Shapely.geom).

Definition read_file (f : gmap string string) (path : string)
  : string + list Shapely.geom :=
  match f !! path with
  | None => inl ("No such file or directory: " ++ path)%string
  | Some text =>
      match decode text with
      | Some boundary_gdf => inr boundary_gdf
      | None => inl "not recognized as a supported file format"%string
      end
  end.

Definition write_text (f : gmap string string) (path text : string)
  : option string * gmap string string :=
  match path with
  | EmptyString => (Some "No such file or directory"%string, f)
  | String _ _ => (None, <[path := text]> f)
  end.

Definition runtime : Driver.Runtime G :=
  {| Driver.files := gmap string string;
     Driver.read_file := read_file;
     Driver.write_text := write_text;
     Driver.file_text := fun f path => f !! path;
     Driver.exn_message := fun e => "float division by zero"%string;
     Driver.format_exc := fun f =>
       "Traceback (most recent call last):"%string |}.

End WithDecoder.

(** Two texts stand for boundary files: a square inside the first
    region, and a ring without area inside it. *)
Definition decode_sample (text : string)
  : option (list (@Shapely.geom Lattice.geometry)) :=
  if String.eqb text "square" then Some Samples.unit_square
  else if String.eqb text "segment" then Some Samples.collinear_inside
  else None.

Definition sample_runtime : Driver.Runtime Lattice.geometry :=
  runtime decode_sample.

Definition sample_files : gmap string string :=
  {[ "farm.geojson"%string := "square"%string;
     "farm.json"%string := "square"%string;
     "line.geojson"%string := "segment"%string;
     "notes.geojson"%string := "hello"%string ]}.

Definition sample_host : @Driver.Host Lattice.geometry sample_runtime :=
  {| Driver.host_world := Samples.world;
     Driver.host_files := sample_files : @Driver.files _ sample_runtime;
     Driver.stderr := [] |}.

(** A process whose boundary file lies in a directory named like a
    boundary file. *)
Definition nested_host : @Driver.Host Lattice.geometry sample_runtime :=
  {| Driver.host_world := Samples.world;
     Driver.host_files :=
       ({[ "in.geojson/farm.geojson"%string := "square"%string ]}
        : gmap string string) : @Driver.files _ sample_runtime;
     Driver.stderr := [] |}.

End Memory.

(** * Properties *)

(** ** Python built-ins *)

Section PyFacts.


Lemma append_empty_r (s : string) : (s ++ "" = s)%string.
Proof.
  induction s as [|c s IH]; [done|].
  change (String c (s ++ "") = String c s)%string. by rewrite IH.
Qed.


Lemma truediv_nonzero (a b : Q) :
  ~ (b == 0)%Q -> truediv a b = Ok (a / b)%Q.
Proof.
  intros Hb. unfold truediv. destruct (Qeq_bool b 0) eqn:E; [|reflexivity].
  apply Qeq_bool_eq in E. contradiction.
Qed.

Lemma truediv_zero (a b : Q) :
  (b == 0)%Q -> truediv a b = Raise ZeroDivisionError.
Proof. intros Hb. unfold truediv. by rewrite (Qeq_eq_bool _ _ Hb). Qed.

Lemma gt_true (a b : num) : gt a b = true <-> (to_Q b < to_Q a)%Q.
Proof.
  unfold gt. rewrite Qgt_alt.
  destruct (to_Q a ?= to_Q b)%Q; split; congruence.
Qed.

Lemma gt_false (a b : num) : gt a b = false <-> (to_Q a <= to_Q b)%Q.
Proof.
  unfold gt. rewrite Qle_alt.
  destruct (to_Q a ?= to_Q b)%Q; split; congruence.
Qed.

(** [int] drops the fractional part. *)
Lemma int_toward_zero (x : Q) : trunc_toward_zero x (int x).
Proof.
  destruct x as [n d]. unfold trunc_toward_zero, int, Qle, Qlt; simpl.
  pose proof (Z.quot_rem' n (Z.pos d)) as Hqr.
  split; intros Hn.
  - pose proof (Z.rem_bound_pos_pos n (Z.pos d) ltac:(lia) ltac:(lia)). nia.
  - pose proof (Z.rem_bound_pos_neg n (Z.pos d) ltac:(lia) ltac:(lia)). nia.
Qed.

Lemma trunc_toward_zero_unique (x : Q) (z z' : Z) :
  trunc_toward_zero x z -> trunc_toward_zero x z' -> z = z'.
Proof.
  intros [Hp Hn] [Hp' Hn'].
  destruct (Qlt_le_dec x 0) as [Hx|Hx].
  - destruct (Hn (Qlt_le_weak _ _ Hx)) as [H1 H2].
    destruct (Hn' (Qlt_le_weak _ _ Hx)) as [H1' H2'].
    assert (Ha : (inject_Z (z - 1) < inject_Z z')%Q) by lra.
    assert (Hb : (inject_Z (z' - 1) < inject_Z z)%Q) by lra.
    rewrite <- Zlt_Qlt in Ha, Hb. lia.
  - destruct (Hp Hx) as [H1 H2]. destruct (Hp' Hx) as [H1' H2'].
    assert (Ha : (inject_Z z < inject_Z (z' + 1))%Q) by lra.
    assert (Hb : (inject_Z z' < inject_Z (z + 1))%Q) by lra.
    rewrite <- Zlt_Qlt in Ha, Hb. lia.
Qed.

Lemma trunc_toward_zero_proper (x y : Q) (z : Z) :
  (x == y)%Q -> trunc_toward_zero x z -> trunc_toward_zero y z.
Proof. unfold trunc_toward_zero. intros E. by rewrite E. Qed.

Lemma int_proper (x y : Q) : (x == y)%Q -> int x = int y.
Proof.
  intros E. apply (trunc_toward_zero_unique y); [|apply int_toward_zero].
  apply (trunc_toward_zero_proper x); [done|apply int_toward_zero].
Qed.

Lemma int_inject_Z (z : Z) : int (inject_Z z) = z.
Proof. unfold int; simpl. apply Z.quot_1_r. Qed.

Lemma round_half_even_proper (x y : Q) :
  (x == y)%Q -> round_half_even x = round_half_even y.
Proof.
  intros E. unfold round_half_even. cbv zeta.
  rewrite (Qfloor_comp x y E).
  assert (E' : (x - inject_Z (Qfloor y) == y - inject_Z (Qfloor y))%Q) by lra.
  by rewrite (Qcompare_comp _ _ E' (1 # 2)%Q (1 # 2)%Q (Qeq_refl _)).
Qed.

Lemma round_half_even_bounds (x : Q) (a b : Z) :
  (inject_Z a <= x)%Q -> (x <= inject_Z b)%Q ->
  a <= round_half_even x <= b.
Proof.
  intros Ha Hb.
  assert (Hfa : a <= Qfloor x)
    by (rewrite <- (Qfloor_Z a); by apply Qfloor_resp_le).
  assert (Hfb : Qfloor x <= b)
    by (rewrite <- (Qfloor_Z b); by apply Qfloor_resp_le).
  pose proof (Qfloor_le x) as Hfl.
  assert (Hup : (inject_Z (Qfloor x) < x)%Q -> Qfloor x + 1 <= b).
  { intros Hlt. assert (Hc : (inject_Z (Qfloor x) < inject_Z b)%Q) by lra.
    rewrite <- Zlt_Qlt in Hc. lia. }
  unfold round_half_even.
  destruct (Qcompare_spec (x - inject_Z (Qfloor x)) (1 # 2)) as [E|E|E].
  - destruct (Z.even (Qfloor x)); [lia|].
    split; [lia|apply Hup; lra].
  - lia.
  - split; [lia|apply Hup; lra].
Qed.

Lemma round_float_proper (x y : Q) (n : nat) :
  (x == y)%Q -> round_float x n = round_float y n.
Proof.
  intros E. unfold round_float.
  rewrite (round_half_even_proper (x * inject_Z (10 ^ Z.of_nat n))
             (y * inject_Z (10 ^ Z.of_nat n))); [done|].
  by apply Qmult_comp.
Qed.

Lemma round_float_value (x : Q) (n : nat) :
  (round_float x n ==
   inject_Z (round_half_even (x * inject_Z (10 ^ Z.of_nat n)))
   / inject_Z (10 ^ Z.of_nat n))%Q.
Proof.
  unfold round_float. rewrite Qred_correct.
  assert (Hpos : 0 < 10 ^ Z.of_nat n) by (apply Z.pow_pos_nonneg; lia).
  rewrite (Qmake_Qdiv _ (Z.to_pos _)). by rewrite Z2Pos.id.
Qed.

(** Rounding keeps a value between two integers between them. *)
Lemma round_float_bounds (x : Q) (n : nat) (a b : Z) :
  (inject_Z a <= x)%Q -> (x <= inject_Z b)%Q ->
  (inject_Z a <= round_float x n)%Q /\ (round_float x n <= inject_Z b)%Q.
Proof.
  intros Ha Hb. rewrite round_float_value.
  set (s := 10 ^ Z.of_nat n).
  assert (Hs : 0 < s) by (apply Z.pow_pos_nonneg; lia).
  assert (HsQ : (0 < inject_Z s)%Q) by (unfold Qlt; simpl; lia).
  destruct (round_half_even_bounds (x * inject_Z s) (a * s) (b * s))
    as [H1 H2].
  { rewrite inject_Z_mult. nra. }
  { rewrite inject_Z_mult. nra. }
  rewrite Zle_Qle, inject_Z_mult in H1, H2.
  split.
  - apply Qle_shift_div_l; [done|lra].
  - apply Qle_shift_div_r; [done|lra].
Qed.





End PyFacts.

(** ** The region loop and the analysis *)

Section AnalysisFacts.

Context {G : Shapely.Geometry}.

Implicit Types (u : Shapely.geom) (rows pre post : list (Region G)).
Implicit Types (r : Region G) (ir : option string) (mo : num).
Implicit Types (w : World G) (boundary_gdf : list Shapely.geom).

Lemma overlap_percentage_nonzero u g :
  ~ (Shapely.area u == 0)%Q ->
  overlap_percentage u g = Ok (overlap_formula u g).
Proof.
  intros Hu. unfold overlap_percentage. by rewrite truediv_nonzero.
Qed.

Lemma overlap_percentage_zero u g :
  (Shapely.area u == 0)%Q ->
  overlap_percentage u g = Raise ZeroDivisionError.
Proof.
  intros Hu. unfold overlap_percentage. by rewrite truediv_zero.
Qed.

(** Running the loop over [pre ++ post] is running it over [pre] and
    going on over [post] with the variables as [pre] left them. *)
Lemma region_analysis_app u pre post ir mo :
  region_analysis u (pre ++ post) ir mo =
  match region_analysis u pre ir mo with
  | Ok found => region_analysis u post (fst found) (snd found)
  | Raise e => Raise e
  end.
Proof.
  revert ir mo. induction pre as [|r pre IH]; intros ir mo; simpl; [done|].
  destruct (Shapely.intersects u (row_geometry r)); [|apply IH].
  destruct (overlap_percentage u (row_geometry r)) as [p|e]; [|done].
  destruct (gt (Float p) mo); apply IH.
Qed.

(** Rows that do not beat the running maximum leave both variables as
    they are. *)
Lemma region_analysis_keep u rows ir mo :
  (forall r, r ∈ rows ->
     Shapely.intersects u (row_geometry r) = true ->
     exists p, overlap_percentage u (row_geometry r) = Ok p
               /\ (p <= to_Q mo)%Q) ->
  region_analysis u rows ir mo = Ok (ir, mo).
Proof.
  induction rows as [|r rows IH]; intros Hrows; simpl; [done|].
  assert (Hrest : region_analysis u rows ir mo = Ok (ir, mo)).
  { apply IH. intros r' Hr'. apply Hrows. by right. }
  destruct (Shapely.intersects u (row_geometry r)) eqn:Hi; [|done].
  destruct (Hrows r ltac:(left) Hi) as (p & -> & Hp).
  assert (Hgt : gt (Float p) mo = false) by by apply gt_false.
  by rewrite Hgt.
Qed.

(** Rows whose overlaps are all below [bound] keep the running maximum
    below [bound]. *)
Lemma region_analysis_below u rows ir mo (bound : Q) :
  ~ (Shapely.area u == 0)%Q ->
  (forall r, r ∈ rows ->
     Shapely.intersects u (row_geometry r) = true ->
     (overlap_formula u (row_geometry r) < bound)%Q) ->
  (to_Q mo < bound)%Q ->
  exists ir' mo',
    region_analysis u rows ir mo = Ok (ir', mo') /\ (to_Q mo' < bound)%Q.
Proof.
  intros Hu. revert ir mo.
  induction rows as [|r rows IH]; intros ir mo Hrows Hmo; simpl; [by eauto|].
  assert (Hrest : forall r', r' ∈ rows ->
            Shapely.intersects u (row_geometry r') = true ->
            (overlap_formula u (row_geometry r') < bound)%Q).
  { intros r' Hr'. apply Hrows. by right. }
  destruct (Shapely.intersects u (row_geometry r)) eqn:Hi; [|by apply IH].
  rewrite overlap_percentage_nonzero by done.
  destruct (gt (Float (overlap_formula u (row_geometry r))) mo);
    apply IH; try done.
  simpl. apply Hrows; [by left|done].
Qed.

(** The first row to reach the greatest overlap is the one selected. *)
Lemma region_analysis_first_max u pre r post :
  ~ (Shapely.area u == 0)%Q ->
  Shapely.intersects u (row_geometry r) = true ->
  (0 < overlap_formula u (row_geometry r))%Q ->
  (forall r', r' ∈ pre ->
     Shapely.intersects u (row_geometry r') = true ->
     (overlap_formula u (row_geometry r')
      < overlap_formula u (row_geometry r))%Q) ->
  (forall r', r' ∈ post ->
     Shapely.intersects u (row_geometry r') = true ->
     (overlap_formula u (row_geometry r')
      <= overlap_formula u (row_geometry r))%Q) ->
  region_analysis u (pre ++ r :: post) None (Int 0) =
  Ok (Some (row_name r), Float (overlap_formula u (row_geometry r))).
Proof.
  intros Hu Hi Hpos Hpre Hpost.
  rewrite region_analysis_app.
  destruct (region_analysis_below u pre None (Int 0)
              (overlap_formula u (row_geometry r)) Hu Hpre Hpos)
    as (ir' & mo' & -> & Hmo').
  simpl. rewrite Hi, overlap_percentage_nonzero by done.
  assert (Hgt : gt (Float (overlap_formula u (row_geometry r))) mo' = true)
    by by apply gt_true.
  rewrite Hgt. apply region_analysis_keep.
  intros r' Hr' Hi'. rewrite overlap_percentage_nonzero by done.
  eexists. split; [done|]. simpl. by apply Hpost.
Qed.

(** With a boundary of area zero the loop stops at the first row that
    meets the boundary. *)
Lemma region_analysis_zero_area u rows ir mo :
  (Shapely.area u == 0)%Q ->
  region_analysis u rows ir mo =
  if existsb (fun r => Shapely.intersects u (row_geometry r)) rows
  then Raise ZeroDivisionError
  else Ok (ir, mo).
Proof.
  intros Hu. induction rows as [|r rows IH]; simpl; [done|].
  destruct (Shapely.intersects u (row_geometry r)); simpl; [|done].
  by rewrite overlap_percentage_zero.
Qed.



(** [analyze_land] is the loop followed by the construction of the plan;
    the module state comes back as it was. *)
Lemma analyze_land_run boundary_gdf w :
  analyze_land boundary_gdf w =
  (match region_analysis (Shapely.union_all boundary_gdf)
           (g_BIOGEO_REGIONS_GDF w) None (Int 0) with
   | Ok found => Ok (plan_of w (Shapely.union_all boundary_gdf) found)
   | Raise e => Raise e
   end, w).
Proof.
  unfold analyze_land, mbind, M_bind, global, lift, mret, M_ret.
  by destruct (region_analysis _ _ _ _).
Qed.

(** The simulation figures depend on the area only through its value. *)
Lemma simulate_proper (a a' : Q) mo :
  (a == a')%Q -> simulate a mo = simulate a' mo.
Proof.
  intros E. unfold simulate; simpl.
  assert (Ek : forall k : Q, (a * 10000 * k == a' * 10000 * k)%Q)
    by (intros k; rewrite E; ring).
  rewrite !(int_proper _ _ (Ek _)).
  rewrite (round_float_proper (a * 10000) (a' * 10000) 2); [done|].
  rewrite E; ring.
Qed.


(** On well-formed geometries an overlap is between 0 and 100. *)
Lemma overlap_formula_range `{!Shapely.GeometryLaws G} u (g : Shapely.geom) :
  (0 < Shapely.area u)%Q ->
  (0 <= overlap_formula u g)%Q /\ (overlap_formula u g <= 100)%Q.
Proof.
  intros Hpos. unfold overlap_formula.
  pose proof (Shapely.area_nonneg (Shapely.intersection u g)) as H0.
  pose proof (Shapely.area_intersection_le u g) as H1.
  assert (Hlo : (0 <= Shapely.area (Shapely.intersection u g)
                      / Shapely.area u)%Q)
    by (apply Qle_shift_div_l; [done|lra]).
  assert (Hhi : (Shapely.area (Shapely.intersection u g)
                 / Shapely.area u <= 1)%Q)
    by (apply Qle_shift_div_r; [done|lra]).
  revert Hlo Hhi.
  generalize (Shapely.area (Shapely.intersection u g) / Shapely.area u)%Q.
  intros d Hlo Hhi. split; lra.
Qed.

End AnalysisFacts.

(** ** The lattice geometry obeys the laws *)

Module LatticeFacts.

Import Lattice.

Lemma elem_of_zrange (a b i : Z) : i ∈ zrange a b <-> a <= i < b.
Proof.
  unfold zrange. rewrite list_elem_of_fmap. split.
  - intros (k & -> & Hk). apply elem_of_seq in Hk. lia.
  - intros Hi. exists (Z.to_nat (i - a)). split; [lia|].
    apply elem_of_seq. lia.
Qed.

Lemma elem_of_box_cells (b : box) (i j : Z) :
  (i, j) ∈ box_cells b <-> (x0 b <= i < x1 b) /\ (y0 b <= j < y1 b).
Proof.
  unfold box_cells. rewrite elem_of_list_to_set, list_elem_of_In, in_prod_iff.
  rewrite <- !list_elem_of_In, !elem_of_zrange. reflexivity.
Qed.

Lemma elem_of_cells (g : list box) (c : Z * Z) :
  c ∈ cells g <-> exists b, b ∈ g /\ c ∈ box_cells b.
Proof.
  unfold cells. rewrite elem_of_union_list. split.
  - intros (X & HX & Hc). apply list_elem_of_fmap in HX as (b & -> & Hb). eauto.
  - intros (b & Hb & Hc). exists (box_cells b). split; [|done].
    apply list_elem_of_fmap. eauto.
Qed.

Lemma cells_app (g h : list box) : cells (g ++ h) = cells g ∪ cells h.
Proof. unfold cells. rewrite fmap_app. apply leibniz_equiv, union_list_app. Qed.

Lemma box_cells_meet (a b : box) (c : Z * Z) :
  c ∈ box_cells (meet a b) <-> c ∈ box_cells a /\ c ∈ box_cells b.
Proof.
  destruct c as [i j]. rewrite !elem_of_box_cells. unfold meet; simpl. lia.
Qed.

Lemma box_cells_nonempty (b : box) (c : Z * Z) :
  c ∈ box_cells b -> nonempty b = true.
Proof.
  destruct c as [i j]. rewrite elem_of_box_cells. unfold nonempty.
  intros. apply andb_true_iff. split; apply Z.leb_le; lia.
Qed.

Lemma elem_of_geom_intersection (g h : list box) (m : box) :
  m ∈ intersection g h <->
  exists a b, a ∈ g /\ b ∈ h /\ nonempty (meet a b) = true /\ m = meet a b.
Proof.
  unfold intersection. rewrite list_elem_of_bind. split.
  - intros (a & Hm & Ha). apply list_elem_of_bind in Hm as (b & Hm & Hb).
    destruct (nonempty (meet a b)) eqn:E.
    + apply list_elem_of_singleton in Hm. eauto 10.
    + by apply not_elem_of_nil in Hm.
  - intros (a & b & Ha & Hb & E & ->). exists a. split; [|done].
    apply list_elem_of_bind. exists b. split; [|done].
    rewrite E. by apply list_elem_of_singleton.
Qed.

(** The cells of an intersection are the common cells. *)
Lemma cells_intersection (g h : list box) :
  cells (intersection g h) = cells g ∩ cells h.
Proof.
  apply set_eq. intros c.
  rewrite elem_of_intersection, !elem_of_cells. split.
  - intros (m & Hm & Hc).
    apply elem_of_geom_intersection in Hm as (a & b & Ha & Hb & _ & ->).
    apply box_cells_meet in Hc as [Hca Hcb]. split; eauto.
  - intros [(a & Ha & Hca) (b & Hb & Hcb)].
    assert (Hc : c ∈ box_cells (meet a b)) by by apply box_cells_meet.
    exists (meet a b). split; [|done].
    apply elem_of_geom_intersection. exists a, b.
    eauto using box_cells_nonempty.
Qed.

Lemma intersects_false (g h : list box) (a b : box) :
  intersects g h = false -> a ∈ g -> b ∈ h -> nonempty (meet a b) = false.
Proof.
  unfold intersects. intros Hno Ha Hb.
  destruct (nonempty (meet a b)) eqn:E; [|done].
  rewrite <- Hno. symmetry. apply existsb_exists.
  exists a. split; [by apply list_elem_of_In|].
  apply existsb_exists. exists b. split; [by apply list_elem_of_In|done].
Qed.

(** Geometries that do not meet have no cell in common. *)
Lemma cells_disjoint (g h : list box) :
  intersects g h = false -> cells g ## cells h.
Proof.
  intros Hno c Hg Hh.
  apply elem_of_cells in Hg as (a & Ha & Hca).
  apply elem_of_cells in Hh as (b & Hb & Hcb).
  assert (Hc : c ∈ box_cells (meet a b)) by by apply box_cells_meet.
  apply box_cells_nonempty in Hc.
  rewrite (intersects_false g h a b) in Hc; done.
Qed.

Lemma cells_concat_disjoint (g : list box) (pieces : list (list box)) :
  Forall (fun h => intersects g h = false) pieces ->
  cells g ## cells (concat pieces).
Proof.
  induction 1 as [|h pieces Hh _ IH]; simpl.
  - unfold cells; simpl. set_solver.
  - rewrite cells_app. apply disjoint_union_r. split; [|done].
    by apply cells_disjoint.
Qed.

Lemma area_app_disjoint (g h : list box) :
  cells g ## cells h -> (area (g ++ h) == area g + area h)%Q.
Proof.
  intros Hd. unfold area. rewrite cells_app, size_union by done.
  unfold Qeq, Qplus; simpl. lia.
Qed.

Lemma laws : Shapely.GeometryLaws Lattice.geometry.
Proof.
  split.
  - intros g. simpl. unfold area, Qle; simpl. lia.
  - intros a b. simpl. unfold area. rewrite cells_intersection.
    assert (Hle : (size (cells a ∩ cells b) <= size (cells a))%nat)
      by apply subseteq_size, intersection_subseteq_l.
    unfold Qle; simpl. lia.
  - intros pieces. unfold Shapely.pairwise_disjoint. simpl.
    induction 1 as [|g pieces Hg _ IH]; simpl.
    + reflexivity.
    + unfold union_all in *; simpl.
      rewrite area_app_disjoint by by apply cells_concat_disjoint.
      by rewrite IH.
Qed.

End LatticeFacts.

(** ** The analysis, claim by claim *)

Section Claims.

Context {G : Shapely.Geometry}.

Implicit Types (w : World G) (boundary_gdf : list Shapely.geom).
Implicit Types (r : Region G) (pre post : list (Region G)).

(** C1, as the code has it.  [analyze_land] does not check the area of
    the boundary.  When the merged geometry has area zero, the call
    raises [ZeroDivisionError] if some region of the table meets the
    merged geometry, and no plan is built; when none does, the call
    returns the plan of the default biome with an overlap of 0 and all
    projections at 0. *)
Theorem analyze_land_zero_area w boundary_gdf :
  (Shapely.area (Shapely.union_all boundary_gdf) == 0)%Q ->
  analyze_land boundary_gdf w =
  (if existsb
        (fun r => Shapely.intersects (Shapely.union_all boundary_gdf)
                    (row_geometry r))
        (g_BIOGEO_REGIONS_GDF w)
   then Raise ZeroDivisionError
   else Ok {| biogeographic_region := "Tropical_Savanna";
              recommended_flora :=
                default [] (g_FLORA_DATABASE w !! "Tropical_Savanna"%string);
              simulation :=
                {| land_area_hectares := Float 0;
                   estimated_trees_year_5 := 0;
                   estimated_chickens_year_2 := 0;
                   black_soldier_fly_production_kg_week := 0;
                   region_overlap_percentage := Int 0 |} |},
   w).
Proof.
  intros Hu. rewrite analyze_land_run, region_analysis_zero_area by done.
  destruct (existsb _ _); [done|].
  unfold plan_of, simulate; simpl.
  assert (E : forall k : Q,
             (Shapely.area (Shapely.union_all boundary_gdf) * 10000 * k
              == inject_Z 0)%Q) by (intros k; rewrite Hu; ring).
  rewrite !(int_proper _ _ (E _)), int_inject_Z.
  rewrite (round_float_proper _ 0 2) by (rewrite Hu; ring).
  done.
Qed.




(** C5.  With the tables of the module, a boundary of positive area that
    lies inside the first region (it meets the region and its whole area
    is in the intersection) gets the biome key Tropical_Rainforest, an
    overlap of 100.0 and the three flora entries of that biome. *)
Theorem analyze_land_inside_first_region `{!Shapely.GeometryLaws G}
    boundary_gdf :
  let boundary_geom := Shapely.union_all boundary_gdf in
  let first_region := Shapely.Polygon rainforest_ring in
  (0 < Shapely.area boundary_geom)%Q ->
  Shapely.intersects boundary_geom first_region = true ->
  (Shapely.area (Shapely.intersection boundary_geom first_region)
   == Shapely.area boundary_geom)%Q ->
  exists plan,
    analyze_land boundary_gdf module_world = (Ok plan, module_world) /\
    biogeographic_region plan = "Tropical_Rainforest"%string /\
    region_overlap_percentage (simulation plan) = Float 100 /\
    name <$> recommended_flora plan =
      [ "Leucaena leucocephala"; "Moringa oleifera";
        "Paspalum notatum" ]%string /\
    recommended_flora plan =
      [ {| name := "Leucaena leucocephala"; type := "Tree";
           chicken_benefit := "High-protein forage, shade" |};
        {| name := "Moringa oleifera"; type := "Tree";
           chicken_benefit := "Vitamins, minerals, forage" |};
        {| name := "Paspalum notatum"; type := "Grass";
           chicken_benefit := "Ground cover, forage" |} ].
Proof.
  intros u first Hpos Hi Hin.
  assert (Hu : ~ (Shapely.area u == 0)%Q) by lra.
  assert (H100 : (overlap_formula u first == 100)%Q).
  { unfold overlap_formula. rewrite Hin. field. done. }
  pose (r1 := {| row_name := "Tropical_Rainforest_Region";
                 row_geometry := first |} : Region G).
  assert (Hloop :
    region_analysis u (g_BIOGEO_REGIONS_GDF module_world) None (Int 0) =
    Ok (Some (row_name r1), Float (overlap_formula u (row_geometry r1)))).
  { apply (region_analysis_first_max u [] r1); try done.
    - simpl. fold first. lra.
    - intros r' Hr'. by apply not_elem_of_nil in Hr'.
    - intros r' _ _. simpl. fold first. rewrite H100.
      by apply overlap_formula_range. }
  rewrite analyze_land_run. fold u. rewrite Hloop. eexists.
  split; [done|]. simpl. fold first.
  rewrite (round_float_proper _ 100 1 H100).
  by vm_compute.
Qed.


(** C7.  When the loop has run to its end and the biome key it leads to
    is not a key of the flora table, the call raises nothing: the plan
    is returned with that key and an empty list of recommended flora. *)
Theorem analyze_land_missing_flora w boundary_gdf found :
  region_analysis (Shapely.union_all boundary_gdf)
    (g_BIOGEO_REGIONS_GDF w) None (Int 0) = Ok found ->
  g_FLORA_DATABASE w !! region_key_of (fst found) = None ->
  exists plan,
    analyze_land boundary_gdf w = (Ok plan, w) /\
    biogeographic_region plan = region_key_of (fst found) /\
    recommended_flora plan = [].
Proof.
  intros Hfound Hkey. rewrite analyze_land_run, Hfound.
  eexists. split; [done|]. simpl. by rewrite Hkey.
Qed.


(** C10.  When no row of the table reaches an overlap above zero (rows
    that do not meet the boundary are skipped, rows that meet it only
    along a border have an overlap of zero), no row is selected: the
    plan has the biome key Tropical_Savanna, the flora of that key, and
    an overlap of 0, which is the integer the running maximum started
    from. *)
Theorem analyze_land_default_biome w boundary_gdf :
  let boundary_geom := Shapely.union_all boundary_gdf in
  (forall r, r ∈ g_BIOGEO_REGIONS_GDF w ->
     Shapely.intersects boundary_geom (row_geometry r) = true ->
     exists pct,
       overlap_percentage boundary_geom (row_geometry r) = Ok pct /\
       (pct <= 0)%Q) ->
  exists plan,
    analyze_land boundary_gdf w = (Ok plan, w) /\
    biogeographic_region plan = "Tropical_Savanna"%string /\
    recommended_flora plan =
      default [] (g_FLORA_DATABASE w !! "Tropical_Savanna"%string) /\
    region_overlap_percentage (simulation plan) = Int 0 /\
    (to_Q (region_overlap_percentage (simulation plan)) == 0)%Q.
Proof.
  intros u Hrows. rewrite analyze_land_run. fold u.
  rewrite (region_analysis_keep u _ None (Int 0)) by done.
  by eexists.
Qed.

End Claims.

(** ** The report *)

Section ReportFacts.




End ReportFacts.

Section ReportClaim.

Context {G : Shapely.Geometry}.


End ReportClaim.

(** ** Worked examples on the lattice *)

Section Worked.

Import Lattice LatticeFacts Samples.

(** A boundary whose points lie on one line, away from both regions, has
    area zero, and still gets a plan: the plan of the default biome. *)
Lemma zero_area_boundary_gets_a_plan :
  (Shapely.area (Shapely.union_all collinear_far) == 0)%Q /\
  analyze_land collinear_far world =
  (Ok {| biogeographic_region := "Tropical_Savanna";
         recommended_flora :=
           [ {| name := "Acacia tortilis"; type := "Tree";
                chicken_benefit := "Shade, pods for forage" |};
             {| name := "Cenchrus ciliaris"; type := "Grass";
                chicken_benefit := "Drought-resistant forage" |} ];
         simulation :=
           {| land_area_hectares := Float 0;
              estimated_trees_year_5 := 0;
              estimated_chickens_year_2 := 0;
              black_soldier_fly_production_kg_week := 0;
              region_overlap_percentage := Int 0 |} |},
   world).
Proof. split; vm_compute; reflexivity. Qed.

Lemma analyze_land_zero_area_witness :
  (Shapely.area (Shapely.union_all collinear_inside) == 0)%Q /\
  analyze_land collinear_inside world = (Raise ZeroDivisionError, world).
Proof.
  split; [vm_compute; reflexivity|].
  rewrite (analyze_land_zero_area world collinear_inside);
    vm_compute; reflexivity.
Defined.




Lemma analyze_land_inside_first_region_witness :
  (0 < Shapely.area (Shapely.union_all unit_square))%Q /\
  Shapely.intersects (Shapely.union_all unit_square) first_region = true /\
  (Shapely.area (Shapely.intersection (Shapely.union_all unit_square)
                   first_region)
   == Shapely.area (Shapely.union_all unit_square))%Q /\
  exists plan,
    analyze_land unit_square world = (Ok plan, world) /\
    biogeographic_region plan = "Tropical_Rainforest"%string /\
    region_overlap_percentage (simulation plan) = Float 100 /\
    name <$> recommended_flora plan =
      [ "Leucaena leucocephala"; "Moringa oleifera";
        "Paspalum notatum" ]%string.
Proof.
  assert (Hpos : (0 < Shapely.area (Shapely.union_all unit_square))%Q)
    by (vm_compute; reflexivity).
  assert (Hi : Shapely.intersects (Shapely.union_all unit_square)
                 first_region = true) by (vm_compute; reflexivity).
  assert (Hin : (Shapely.area (Shapely.intersection
                                 (Shapely.union_all unit_square) first_region)
                 == Shapely.area (Shapely.union_all unit_square))%Q)
    by (vm_compute; reflexivity).
  do 3 (split; [assumption|]).
  destruct (@analyze_land_inside_first_region _ laws unit_square Hpos Hi Hin)
    as (plan & Hrun & Hkey & Hpct & Hnames & _).
  exists plan. repeat split; assumption.
Defined.


Lemma analyze_land_missing_flora_witness :
  g_FLORA_DATABASE world_without_flora !! "Tropical_Rainforest"%string = None /\
  exists plan,
    analyze_land unit_square world_without_flora
      = (Ok plan, world_without_flora) /\
    biogeographic_region plan = "Tropical_Rainforest"%string /\
    recommended_flora plan = [].
Proof.
  split; [vm_compute; reflexivity|].
  apply (analyze_land_missing_flora world_without_flora unit_square
           (Some "Tropical_Rainforest_Region"%string,
            Float (overlap_formula (Shapely.union_all unit_square)
                     first_region)));
    vm_compute; reflexivity.
Defined.


Lemma analyze_land_default_biome_witness :
  Shapely.intersects (Shapely.union_all touching) first_region = true /\
  (exists pct,
     overlap_percentage (Shapely.union_all touching) first_region = Ok pct
     /\ (pct == 0)%Q) /\
  exists plan,
    analyze_land touching world = (Ok plan, world) /\
    biogeographic_region plan = "Tropical_Savanna"%string /\
    region_overlap_percentage (simulation plan) = Int 0.
Proof.
  split; [vm_compute; reflexivity|].
  split; [eexists; split; vm_compute; reflexivity|].
  destruct (analyze_land_default_biome world touching)
    as (plan & Hrun & Hkey & _ & Hpct & _).
  - intros r Hr Hi. apply list_elem_of_In in Hr. simpl in Hr.
    destruct Hr as [<-|[<-|[]]].
    + eexists. split; [vm_compute; reflexivity|vm_compute; discriminate].
    + vm_compute in Hi. discriminate Hi.
  - exists plan. repeat split; assumption.
Defined.



End Worked.

(** ** Substrings, [split] and [replace] *)

Section StringFacts.

Import PyStr.

Lemma append_cons (c : ascii) (s t : string) :
  (String c s ++ t = String c (s ++ t))%string.
Proof. done. Qed.

Lemma prefix_cons (a b : ascii) (s t : string) :
  String.prefix (String a s) (String b t) = true <->
  a = b /\ String.prefix s t = true.
Proof.
  simpl. destruct (ascii_dec a b) as [->|Hne]; split; try done.
  - by intros [_ ?].
  - by intros [? _].
Qed.

Lemma prefix_empty (s : string) : String.prefix "" s = true.
Proof. by destruct s. Qed.

Lemma prefix_refl (s : string) : String.prefix s s = true.
Proof. induction s as [|c s IH]; [done|]. by apply prefix_cons. Qed.

Lemma prefix_append (s t : string) : String.prefix s (s ++ t) = true.
Proof.
  induction s as [|c s IH]; [apply prefix_empty|]. rewrite append_cons.
  by apply prefix_cons.
Qed.

(** A prefix of [b ++ x] lies within [b] or runs over its end. *)
Lemma prefix_append_cases (p b x : string) :
  String.prefix p (b ++ x) = true ->
  String.prefix p b = true \/
  exists q, p = (b ++ q)%string /\ String.prefix q x = true.
Proof.
  revert b. induction p as [|a p IH]; intros b Hp;
    [left; apply prefix_empty|].
  destruct b as [|d b].
  - right. by exists (String a p).
  - rewrite append_cons in Hp. apply prefix_cons in Hp as [-> Hp].
    destruct (IH b Hp) as [Hb|(q & -> & Hq)].
    + left. by apply prefix_cons.
    + right. by exists q.
Qed.

Lemma has_char_append (c : ascii) (s t : string) :
  has_char c (s ++ t) = has_char c s || has_char c t.
Proof.
  induction s as [|d s IH]; [done|]. rewrite append_cons. simpl.
  by rewrite IH, orb_assoc.
Qed.

Lemma contains_false_prefix (p s : string) :
  contains p s = false -> String.prefix p s = false.
Proof. destruct s; simpl; by intros [? _]%orb_false_iff. Qed.

Lemma contains_false_tail (p : string) (c : ascii) (s : string) :
  contains p (String c s) = false -> contains p s = false.
Proof. simpl. by intros [_ ?]%orb_false_iff. Qed.

(** A pattern whose first character does not come back in it cannot
    start inside a text that is free of it and end in a copy of itself
    put after that text. *)
Lemma no_border (c : ascii) (p b t : string) :
  has_char c p = false ->
  b <> EmptyString ->
  contains (String c p) b = false ->
  String.prefix (String c p) (b ++ String c p ++ t) = false.
Proof.
  intros Hc Hb Hfree.
  destruct (String.prefix _ _) eqn:E; [|done]. exfalso.
  apply prefix_append_cases in E as [E|(q & Hq & E)].
  - by rewrite (contains_false_prefix _ _ Hfree) in E.
  - destruct b as [|d b]; [done|].
    rewrite append_cons in Hq. injection Hq as <- ->.
    destruct q as [|e q].
    + apply contains_false_prefix in Hfree.
      rewrite append_empty_r in Hfree.
      by rewrite prefix_refl in Hfree.
    + rewrite append_cons in E. apply prefix_cons in E as [-> _].
      rewrite has_char_append in Hc. simpl in Hc.
      rewrite Ascii.eqb_refl in Hc. simpl in Hc.
      by rewrite orb_true_r in Hc.
Qed.

(** A text free of the separator is its own first field. *)
Lemma split_head_absent (sep s : string) :
  contains sep s = false -> split_head sep s = s.
Proof.
  induction s as [|c s IH]; intros Hfree; [done|].
  pose proof (contains_false_prefix _ _ Hfree) as Hp.
  simpl in Hp |- *. rewrite Hp.
  by rewrite IH by by apply contains_false_tail in Hfree.
Qed.

(** The first field ends where the separator first occurs. *)
Lemma split_head_first (c : ascii) (sep k rest : string) :
  has_char c sep = false ->
  contains (String c sep) k = false ->
  split_head (String c sep) (k ++ String c sep ++ rest) = k.
Proof.
  intros Hc. induction k as [|a k IH]; intros Hfree.
  - change (("" ++ String c sep ++ rest)%string)
      with (String c (sep ++ rest))%string.
    pose proof (prefix_append (String c sep) rest) as Hp.
    rewrite append_cons in Hp.
    unfold split_head. by rewrite Hp.
  - pose proof (no_border c sep (String a k) rest Hc ltac:(done) Hfree) as Hp.
    rewrite append_cons in Hp |- *.
    change (split_head (String c sep) (String a (k ++ String c sep ++ rest)))
      with (if String.prefix (String c sep)
                 (String a (k ++ String c sep ++ rest))
            then EmptyString
            else String a
                   (split_head (String c sep) (k ++ String c sep ++ rest))).
    rewrite Hp. by rewrite IH by by apply contains_false_tail in Hfree.
Qed.

Lemma replace_from_absent (old new s : string) :
  contains old s = false -> replace_from old new 0 s = s.
Proof.
  induction s as [|c s IH]; intros Hfree; [done|].
  pose proof (contains_false_prefix _ _ Hfree) as Hp.
  simpl in Hp |- *. rewrite Hp.
  by rewrite IH by by apply contains_false_tail in Hfree.
Qed.

(** The characters of a matched occurrence are passed over. *)
Lemma replace_from_skip (old new a rest : string) :
  replace_from old new (String.length a) (a ++ rest)
  = replace_from old new 0 rest.
Proof. induction a as [|c a IH]; [done|]. by rewrite append_cons. Qed.

(** [replace] leaves a text free of [old] as it is. *)
Lemma replace_absent (old new s : string) :
  contains old s = false -> replace old new s = s.
Proof.
  intros Hfree. destruct old as [|c old].
  - by destruct s.
  - by apply replace_from_absent.
Qed.

(** The first occurrence of [old] becomes [new], and the scan goes on
    after it. *)
Lemma replace_first (c : ascii) (old new stem rest : string) :
  has_char c old = false ->
  contains (String c old) stem = false ->
  replace (String c old) new (stem ++ String c old ++ rest)
  = (stem ++ new ++ replace (String c old) new rest)%string.
Proof.
  intros Hc. unfold replace. induction stem as [|a stem IH]; intros Hfree.
  - change (("" ++ String c old ++ rest)%string)
      with (String c (old ++ rest))%string.
    pose proof (prefix_append (String c old) rest) as Hp.
    rewrite append_cons in Hp.
    change (replace_from (String c old) new 0 (String c (old ++ rest)))
      with (if String.prefix (String c old) (String c (old ++ rest))
            then (new ++ replace_from (String c old) new
                           (String.length (String c old) - 1)
                           (old ++ rest))%string
            else String c (replace_from (String c old) new 0 (old ++ rest))).
    rewrite Hp.
    replace (String.length (String c old) - 1)%nat with (String.length old)
      by (simpl; lia).
    by rewrite replace_from_skip.
  - pose proof (no_border c old (String a stem) rest Hc ltac:(done) Hfree)
      as Hp.
    rewrite append_cons in Hp |- *.
    change (replace_from (String c old) new 0
              (String a (stem ++ String c old ++ rest)))
      with (if String.prefix (String c old)
                 (String a (stem ++ String c old ++ rest))
            then (new ++ replace_from (String c old) new
                           (String.length (String c old) - 1)
                           (stem ++ String c old ++ rest))%string
            else String a (replace_from (String c old) new 0
                             (stem ++ String c old ++ rest))).
    rewrite Hp. rewrite IH by by apply contains_false_tail in Hfree.
    by rewrite append_cons.
Qed.

End StringFacts.

(** ** Further properties of the analysis *)

Section MoreFacts.

Context {G : Shapely.Geometry}.

Implicit Types (u : Shapely.geom) (rows : list (Region G)).
Implicit Types (r : Region G) (ir : option string) (mo : num).
Implicit Types (w : World G) (boundary_gdf : list Shapely.geom).



Lemma int_monotone (x y : Q) : (x <= y)%Q -> int x <= int y.
Proof.
  intros Hxy.
  destruct (int_toward_zero x) as [Hxp Hxn].
  destruct (int_toward_zero y) as [Hyp Hyn].
  destruct (Qlt_le_dec x 0) as [Hx|Hx]; destruct (Qlt_le_dec y 0) as [Hy|Hy].
  - destruct (Hxn (Qlt_le_weak _ _ Hx)) as [H1 H2].
    destruct (Hyn (Qlt_le_weak _ _ Hy)) as [H3 H4].
    assert (Hc : (inject_Z (int x - 1) < inject_Z (int y))%Q) by lra.
    rewrite <- Zlt_Qlt in Hc. lia.
  - destruct (Hxn (Qlt_le_weak _ _ Hx)) as [H1 H2].
    destruct (Hyp Hy) as [H3 H4].
    assert (Hc : (inject_Z (int x - 1) < inject_Z 0)%Q)
      by (change (inject_Z 0) with 0%Q; lra).
    assert (Hd : (inject_Z 0 < inject_Z (int y + 1))%Q)
      by (change (inject_Z 0) with 0%Q; lra).
    rewrite <- Zlt_Qlt in Hc, Hd. lia.
  - exfalso. lra.
  - destruct (Hxp Hx) as [H1 H2]. destruct (Hyp Hy) as [H3 H4].
    assert (Hc : (inject_Z (int x) < inject_Z (int y + 1))%Q) by lra.
    rewrite <- Zlt_Qlt in Hc. lia.
Qed.

Lemma int_nonneg (x : Q) : (0 <= x)%Q -> 0 <= int x.
Proof.
  intros Hx. change 0 with (int 0) at 1. by apply int_monotone.
Qed.


(** When the loop changes its variables, it leaves in them the name and
    the overlap of a row that meets the boundary, and that overlap is
    above the value the maximum started from. *)
Lemma region_analysis_selected u rows ir mo ir' mo' :
  region_analysis u rows ir mo = Ok (ir', mo') ->
  (ir' = ir /\ mo' = mo) \/
  exists r p,
    r ∈ rows /\ Shapely.intersects u (row_geometry r) = true /\
    overlap_percentage u (row_geometry r) = Ok p /\
    ir' = Some (row_name r) /\ mo' = Float p /\ (to_Q mo < p)%Q.
Proof.
  revert ir mo. induction rows as [|r rows IH]; intros ir mo; simpl.
  - intros [= -> ->]. by left.
  - assert (Hlift : forall ir0 mo0,
              (to_Q mo <= to_Q mo0)%Q ->
              region_analysis u rows ir0 mo0 = Ok (ir', mo') ->
              (ir' = ir0 /\ mo' = mo0) \/
              exists r0 p,
                r0 ∈ r :: rows /\
                Shapely.intersects u (row_geometry r0) = true /\
                overlap_percentage u (row_geometry r0) = Ok p /\
                ir' = Some (row_name r0) /\ mo' = Float p /\
                (to_Q mo < p)%Q).
    { intros ir0 mo0 Hle H.
      destruct (IH _ _ H) as [?|(r0 & p & ? & ? & ? & ? & ? & Hlt)];
        [by left|]. right. exists r0, p.
      split; [by right|]. do 4 (split; [done|]).
      by apply (Qle_lt_trans _ (to_Q mo0)). }
    destruct (Shapely.intersects u (row_geometry r)) eqn:Hi;
      [|apply Hlift; apply Qle_refl].
    destruct (overlap_percentage u (row_geometry r)) as [p|e] eqn:Hp;
      [|done].
    destruct (gt (Float p) mo) eqn:Hgt; [|apply Hlift; apply Qle_refl].
    apply gt_true in Hgt. simpl in Hgt.
    intros H.
    destruct (Hlift _ (Float p) (Qlt_le_weak _ _ Hgt) H) as [[-> ->]|?];
      [|by right].
    right. exists r, p. split; [by left|done].
Qed.

(** The default plan of a boundary without area. *)
Lemma plan_of_zero_area w u :
  (Shapely.area u == 0)%Q ->
  plan_of w u (None, Int 0) =
  {| biogeographic_region := "Tropical_Savanna";
     recommended_flora :=
       default [] (g_FLORA_DATABASE w !! "Tropical_Savanna"%string);
     simulation :=
       {| land_area_hectares := Float 0;
          estimated_trees_year_5 := 0;
          estimated_chickens_year_2 := 0;
          black_soldier_fly_production_kg_week := 0;
          region_overlap_percentage := Int 0 |} |}.
Proof.
  intros Hu. unfold plan_of. rewrite (simulate_proper _ 0 _ Hu).
  by vm_compute.
Qed.

End MoreFacts.

Section MoreAnalysis.

Context {G : Shapely.Geometry}.

Implicit Types (u : Shapely.geom) (rows others : list (Region G)).
Implicit Types (r : Region G) (w : World G).
Implicit Types (boundary_gdf : list Shapely.geom).

Lemma round_half_even_between (x : Q) :
  Qfloor x <= round_half_even x <= Qfloor x + 1.
Proof.
  unfold round_half_even.
  destruct (x - inject_Z (Qfloor x) ?= 1 # 2)%Q;
    [destruct (Z.even (Qfloor x))| |]; lia.
Qed.

Lemma round_half_even_monotone (x y : Q) :
  (x <= y)%Q -> round_half_even x <= round_half_even y.
Proof.
  intros Hxy. pose proof (Qfloor_resp_le x y Hxy) as Hfl.
  destruct (Z.eq_dec (Qfloor x) (Qfloor y)) as [E|Hne].
  - unfold round_half_even. rewrite E.
    destruct (Qcompare_spec (x - inject_Z (Qfloor y)) (1 # 2)) as [Ex|Ex|Ex];
      destruct (Qcompare_spec (y - inject_Z (Qfloor y)) (1 # 2)) as [Ey|Ey|Ey];
      try destruct (Z.even (Qfloor y)); try lia; exfalso; lra.
  - pose proof (round_half_even_between x).
    pose proof (round_half_even_between y). lia.
Qed.

Lemma round_float_monotone (x y : Q) (n : nat) :
  (x <= y)%Q -> (round_float x n <= round_float y n)%Q.
Proof.
  intros Hxy. rewrite !round_float_value.
  set (s := 10 ^ Z.of_nat n).
  assert (Hs : 0 < s) by (apply Z.pow_pos_nonneg; lia).
  assert (HsQ : (0 < inject_Z s)%Q) by (unfold Qlt; simpl; lia).
  assert (Hr : round_half_even (x * inject_Z s)
               <= round_half_even (y * inject_Z s))
    by (apply round_half_even_monotone; nra).
  rewrite Zle_Qle in Hr.
  apply Qle_shift_div_l; [done|].
  unfold Qdiv. rewrite <- Qmult_assoc, (Qmult_comm (/ _)), Qmult_inv_r by lra.
  lra.
Qed.


Lemma region_analysis_unique_max u rows r others :
  rows ≡ₚ r :: others ->
  ~ (Shapely.area u == 0)%Q ->
  Shapely.intersects u (row_geometry r) = true ->
  (0 < overlap_formula u (row_geometry r))%Q ->
  (forall r', r' ∈ others ->
     Shapely.intersects u (row_geometry r') = true ->
     (overlap_formula u (row_geometry r')
      < overlap_formula u (row_geometry r))%Q) ->
  region_analysis u rows None (Int 0) =
  Ok (Some (row_name r), Float (overlap_formula u (row_geometry r))).
Proof.
  intros Hperm Hu Hi Hpos Hothers.
  assert (Hr : r ∈ rows) by (rewrite Hperm; by left).
  apply list_elem_of_split in Hr as (pre & post & ->).
  assert (Hrest : pre ++ post ≡ₚ others).
  { apply (Permutation_cons_inv (a := r)). by rewrite <- Hperm, Permutation_middle. }
  apply region_analysis_first_max; try done.
  - intros r' Hr'. apply Hothers. rewrite <- Hrest.
    apply elem_of_app. by left.
  - intros r' Hr' Hi'. apply Qlt_le_weak. apply Hothers; [|done].
    rewrite <- Hrest. apply elem_of_app. by right.
Qed.

(** When one region has a positive overlap above that of every other
    region, the order of the rows in the table does not matter: two
    tables with the same rows in different orders, and the same flora
    table, give the same plan, with the key of that region. *)
Theorem analyze_land_order_independent w w' boundary_gdf r others :
  let boundary_geom := Shapely.union_all boundary_gdf in
  g_FLORA_DATABASE w = g_FLORA_DATABASE w' ->
  g_BIOGEO_REGIONS_GDF w ≡ₚ r :: others ->
  g_BIOGEO_REGIONS_GDF w' ≡ₚ g_BIOGEO_REGIONS_GDF w ->
  ~ (Shapely.area boundary_geom == 0)%Q ->
  Shapely.intersects boundary_geom (row_geometry r) = true ->
  (0 < overlap_formula boundary_geom (row_geometry r))%Q ->
  (forall r', r' ∈ others ->
     Shapely.intersects boundary_geom (row_geometry r') = true ->
     (overlap_formula boundary_geom (row_geometry r')
      < overlap_formula boundary_geom (row_geometry r))%Q) ->
  fst (analyze_land boundary_gdf w) = fst (analyze_land boundary_gdf w')
  /\ exists plan,
       fst (analyze_land boundary_gdf w) = Ok plan /\
       biogeographic_region plan = region_key_of (Some (row_name r)).
Proof.
  intros u Hflora Hperm Hperm' Hu Hi Hpos Hothers.
  rewrite !analyze_land_run. fold u. simpl.
  rewrite (region_analysis_unique_max u _ r others Hperm Hu Hi Hpos Hothers).
  rewrite (region_analysis_unique_max u _ r others) by
    (try done; by rewrite Hperm').
  split; [|by eexists].
  unfold plan_of. by rewrite Hflora.
Qed.


(** On well-formed geometries no figure of a plan is negative, and the
    insect biomass is at most the number of chickens, which is at most
    the number of trees. *)
Theorem analyze_land_projections_ordered `{!Shapely.GeometryLaws G}
    w boundary_gdf plan :
  analyze_land boundary_gdf w = (Ok plan, w) ->
  0 <= black_soldier_fly_production_kg_week (simulation plan)
  /\ black_soldier_fly_production_kg_week (simulation plan)
     <= estimated_chickens_year_2 (simulation plan)
  /\ estimated_chickens_year_2 (simulation plan)
     <= estimated_trees_year_5 (simulation plan)
  /\ (0 <= to_Q (land_area_hectares (simulation plan)))%Q.
Proof.
  rewrite analyze_land_run.
  destruct (region_analysis _ _ _ _) as [found|e]; [|done].
  intros [= <-]. simpl.
  pose proof (Shapely.area_nonneg (Shapely.union_all boundary_gdf)) as Ha.
  split; [apply int_nonneg; lra|].
  split; [apply int_monotone; lra|].
  split; [apply int_monotone; lra|].
  apply (round_float_bounds _ 2 0 (Qceiling
           (Shapely.area (Shapely.union_all boundary_gdf) * 10000)));
    [change (inject_Z 0) with 0%Q; lra|apply Qle_ceiling].
Qed.

(** A boundary of larger area never gets a smaller figure: the hectares
    and the three projections grow with the area of the merged
    boundary. *)
Theorem analyze_land_projections_monotone
    w w' boundary_gdf boundary_gdf' plan plan' :
  analyze_land boundary_gdf w = (Ok plan, w) ->
  analyze_land boundary_gdf' w' = (Ok plan', w') ->
  (Shapely.area (Shapely.union_all boundary_gdf)
   <= Shapely.area (Shapely.union_all boundary_gdf'))%Q ->
  (to_Q (land_area_hectares (simulation plan))
   <= to_Q (land_area_hectares (simulation plan')))%Q
  /\ estimated_trees_year_5 (simulation plan)
     <= estimated_trees_year_5 (simulation plan')
  /\ estimated_chickens_year_2 (simulation plan)
     <= estimated_chickens_year_2 (simulation plan')
  /\ black_soldier_fly_production_kg_week (simulation plan)
     <= black_soldier_fly_production_kg_week (simulation plan').
Proof.
  rewrite !analyze_land_run.
  destruct (region_analysis (Shapely.union_all boundary_gdf) _ _ _)
    as [found|e]; [|done].
  destruct (region_analysis (Shapely.union_all boundary_gdf') _ _ _)
    as [found'|e']; [|done].
  intros [= <-] [= <-] Hle. simpl.
  split; [apply round_float_monotone; lra|].
  repeat split; apply int_monotone; lra.
Qed.

(** The naming convention between the two tables: when the selected
    region is named by a key followed by [_Region] (and anything after
    it), and the key itself is free of [_Region], the plan carries that
    key and the flora list the flora table holds for it, or no flora
    when the table has no such key. *)
Theorem analyze_land_key_of_suffixed_name
    w boundary_gdf (key rest : string) (max_overlap : num) :
  region_analysis (Shapely.union_all boundary_gdf)
    (g_BIOGEO_REGIONS_GDF w) None (Int 0)
  = Ok (Some (key ++ "_Region" ++ rest)%string, max_overlap) ->
  PyStr.contains "_Region" key = false ->
  exists plan,
    analyze_land boundary_gdf w = (Ok plan, w) /\
    biogeographic_region plan = key /\
    recommended_flora plan = default [] (g_FLORA_DATABASE w !! key).
Proof.
  intros Hloop Hfree. rewrite analyze_land_run, Hloop.
  eexists. split; [done|].
  assert (Hkey : region_key_of (Some (key ++ "_Region" ++ rest)%string) = key).
  { unfold region_key_of.
    assert (Htrue : truthy (Some (key ++ "_Region" ++ rest)%string) = true)
      by by destruct key.
    rewrite Htrue. simpl default.
    by apply (split_head_first "_" "Region"). }
  unfold plan_of; simpl fst. by rewrite Hkey.
Qed.

(** A selected region whose name has no [_Region] in it gives its whole
    name as the biome key. *)
Theorem analyze_land_key_of_plain_name
    w boundary_gdf (region_name : string) (max_overlap : num) :
  region_analysis (Shapely.union_all boundary_gdf)
    (g_BIOGEO_REGIONS_GDF w) None (Int 0)
  = Ok (Some region_name, max_overlap) ->
  region_name <> EmptyString ->
  PyStr.contains "_Region" region_name = false ->
  exists plan,
    analyze_land boundary_gdf w = (Ok plan, w) /\
    biogeographic_region plan = region_name /\
    recommended_flora plan = default [] (g_FLORA_DATABASE w !! region_name).
Proof.
  intros Hloop Hne Hfree. rewrite analyze_land_run, Hloop.
  eexists. split; [done|].
  assert (Hkey : region_key_of (Some region_name) = region_name).
  { unfold region_key_of.
    assert (Htrue : truthy (Some region_name) = true)
      by by destruct region_name.
    rewrite Htrue. simpl default. by apply split_head_absent. }
  unfold plan_of; simpl fst. by rewrite Hkey.
Qed.

(** A region with an empty name can be selected, but its name counts as
    no name: the plan gets the default key Tropical_Savanna and the
    flora of that key, together with the overlap of the selected region,
    which is above 0. *)
Theorem analyze_land_empty_region_name
    w boundary_gdf (max_overlap : num) :
  region_analysis (Shapely.union_all boundary_gdf)
    (g_BIOGEO_REGIONS_GDF w) None (Int 0)
  = Ok (Some EmptyString, max_overlap) ->
  exists plan,
    analyze_land boundary_gdf w = (Ok plan, w) /\
    biogeographic_region plan = "Tropical_Savanna"%string /\
    recommended_flora plan =
      default [] (g_FLORA_DATABASE w !! "Tropical_Savanna"%string) /\
    region_overlap_percentage (simulation plan) = round max_overlap 1 /\
    (0 < to_Q max_overlap)%Q /\
    exists r,
      r ∈ g_BIOGEO_REGIONS_GDF w /\ row_name r = EmptyString /\
      Shapely.intersects (Shapely.union_all boundary_gdf) (row_geometry r)
        = true /\
      overlap_percentage (Shapely.union_all boundary_gdf) (row_geometry r)
        = Ok (to_Q max_overlap).
Proof.
  intros Hloop. rewrite analyze_land_run, Hloop.
  eexists. split; [done|]. do 3 (split; [done|]).
  destruct (region_analysis_selected _ _ _ _ _ _ Hloop)
    as [[[=] _]|(r & p & Hr & Hi & Hp & [= Hname] & -> & Hpos)].
  split; [exact Hpos|]. exists r. by rewrite Hname.
Qed.

(** A boundary without any polygon: on well-formed geometries the merged
    shape has no area, and as an empty shape meets no region the
    analysis raises nothing and returns the plan of the default biome
    with every figure at 0. *)
Theorem analyze_land_empty_boundary `{!Shapely.GeometryLaws G} w :
  (forall g : Shapely.geom,
     Shapely.intersects (Shapely.union_all []) g = false) ->
  analyze_land [] w =
  (Ok {| biogeographic_region := "Tropical_Savanna";
         recommended_flora :=
           default [] (g_FLORA_DATABASE w !! "Tropical_Savanna"%string);
         simulation :=
           {| land_area_hectares := Float 0;
              estimated_trees_year_5 := 0;
              estimated_chickens_year_2 := 0;
              black_soldier_fly_production_kg_week := 0;
              region_overlap_percentage := Int 0 |} |},
   w).
Proof.
  intros Hempty.
  assert (Harea : (Shapely.area (Shapely.union_all []) == 0)%Q)
    by (by rewrite (Shapely.area_union_all_disjoint []) by constructor).
  rewrite analyze_land_run, (region_analysis_keep _ _ None (Int 0)).
  - by rewrite plan_of_zero_area.
  - intros r _ Hi. by rewrite Hempty in Hi.
Qed.

End MoreAnalysis.

(** ** Processing a boundary file *)

Section DriverFacts.

Import Driver.

Context {G : Shapely.Geometry} {R : Runtime G}.

Implicit Types (h : Host G) (geojson_path : string).

(** What was printed does not change what [analyze_land] returns. *)
Lemma analyze_land_ignores_stdout (boundary_gdf : list Shapely.geom)
    (w : World G) (out : list string) :
  let w' := {| g_FLORA_DATABASE := g_FLORA_DATABASE w;
               g_BIOGEO_REGIONS_GDF := g_BIOGEO_REGIONS_GDF w;
               stdout := out |} in
  analyze_land boundary_gdf w' = (fst (analyze_land boundary_gdf w), w').
Proof. intros w'. by rewrite !analyze_land_run. Qed.

Local Arguments analyze_land : simpl never.
Local Arguments generate_plan_report : simpl never.
Local Arguments PyStr.replace : simpl never.

Ltac run_process :=
  unfold process_geojson_file, try_except, mbind, HostM_bind, mret,
    HostM_ret, print, print_exc, gpd_read_file, call_analyze_land,
    open_write; cbn.

Lemma process_read_failure h geojson_path (message : string) :
  read_file (host_files h) geojson_path = inl message ->
  process_geojson_file geojson_path h
  = (Done tt, after_failure h geojson_path (External message) (host_files h)).
Proof.
  intros Hread. run_process. rewrite Hread. cbn.
  unfold after_failure; cbn. by rewrite <- app_assoc.
Qed.

Lemma process_analysis_failure h geojson_path
    (boundary_gdf : list Shapely.geom) (e : exn) :
  read_file (host_files h) geojson_path = inr boundary_gdf ->
  fst (analyze_land boundary_gdf (host_world h)) = Raise e ->
  process_geojson_file geojson_path h
  = (Done tt, after_failure h geojson_path (Uncaught e) (host_files h)).
Proof.
  intros Hread Hrun. run_process. rewrite Hread. cbn.
  rewrite (analyze_land_ignores_stdout boundary_gdf (host_world h)), Hrun.
  unfold after_failure; cbn. by rewrite <- app_assoc.
Qed.

Lemma process_write_failure h geojson_path
    (boundary_gdf : list Shapely.geom) (plan : Plan)
    (message : string) (files' : files) :
  read_file (host_files h) geojson_path = inr boundary_gdf ->
  fst (analyze_land boundary_gdf (host_world h)) = Ok plan ->
  write_text (host_files h)
    (PyStr.replace ".geojson" "_report.txt" geojson_path)
    (generate_plan_report plan) = (Some message, files') ->
  process_geojson_file geojson_path h
  = (Done tt, after_failure h geojson_path (External message) files').
Proof.
  intros Hread Hrun Hwrite. run_process. rewrite Hread. cbn.
  rewrite (analyze_land_ignores_stdout boundary_gdf (host_world h)), Hrun.
  cbn. rewrite Hwrite.
  unfold after_failure; cbn. by rewrite <- app_assoc.
Qed.

Lemma process_success h geojson_path
    (boundary_gdf : list Shapely.geom) (plan : Plan) (files' : files) :
  read_file (host_files h) geojson_path = inr boundary_gdf ->
  fst (analyze_land boundary_gdf (host_world h)) = Ok plan ->
  write_text (host_files h)
    (PyStr.replace ".geojson" "_report.txt" geojson_path)
    (generate_plan_report plan) = (None, files') ->
  process_geojson_file geojson_path h
  = (Done tt,
     after_success h geojson_path (generate_plan_report plan) files').
Proof.
  intros Hread Hrun Hwrite. run_process. rewrite Hread. cbn.
  rewrite (analyze_land_ignores_stdout boundary_gdf (host_world h)), Hrun.
  cbn. rewrite Hwrite.
  unfold after_success; cbn. by rewrite <- !app_assoc.
Qed.

(** An exception raised while the boundary file is read or analysed is
    handled inside [process_geojson_file]: the call returns normally,
    no file is written or changed, and after the line that announces the
    file the console shows the message of the exception; the traceback
    goes to the error stream. *)
Theorem process_geojson_file_failure_keeps_files h geojson_path (f : failure) :
  (exists message,
     read_file (host_files h) geojson_path = inl message /\
     f = External message) \/
  (exists boundary_gdf e,
     read_file (host_files h) geojson_path = inr boundary_gdf /\
     fst (analyze_land boundary_gdf (host_world h)) = Raise e /\
     f = Uncaught e) ->
  exists h',
    process_geojson_file geojson_path h = (Done tt, h') /\
    host_files h' = host_files h /\
    g_FLORA_DATABASE (host_world h') = g_FLORA_DATABASE (host_world h) /\
    g_BIOGEO_REGIONS_GDF (host_world h')
      = g_BIOGEO_REGIONS_GDF (host_world h) /\
    stdout (host_world h')
      = stdout (host_world h)
        ++ [ "Processing: " ++ geojson_path;
             "Error processing file: " ++ failure_message f ]%string /\
    stderr h' = stderr h ++ [format_exc f].
Proof.
  intros [(message & Hread & ->)|(boundary_gdf & e & Hread & Hrun & ->)];
    eexists.
  - split; [by apply process_read_failure|done].
  - split; [by apply (process_analysis_failure _ _ boundary_gdf)|done].
Qed.

(** A boundary file whose merged geometry has no area, and meets a
    region of the table, gets no report: the division by zero raised in
    [analyze_land] is handled, its message is printed after
    [Error processing file: ], and no file is written. *)
Theorem process_geojson_file_zero_area h geojson_path
    (boundary_gdf : list Shapely.geom) :
  read_file (host_files h) geojson_path = inr boundary_gdf ->
  (Shapely.area (Shapely.union_all boundary_gdf) == 0)%Q ->
  existsb
    (fun r => Shapely.intersects (Shapely.union_all boundary_gdf)
                (row_geometry r))
    (g_BIOGEO_REGIONS_GDF (host_world h)) = true ->
  exists h',
    process_geojson_file geojson_path h = (Done tt, h') /\
    host_files h' = host_files h /\
    stdout (host_world h')
      = stdout (host_world h)
        ++ [ "Processing: " ++ geojson_path;
             "Error processing file: " ++ exn_message ZeroDivisionError
           ]%string.
Proof.
  intros Hread Harea Hmeet.
  assert (Hrun : fst (analyze_land boundary_gdf (host_world h))
                 = Raise ZeroDivisionError).
  { rewrite analyze_land_run, region_analysis_zero_area by done.
    by rewrite Hmeet. }
  eexists. split; [by apply (process_analysis_failure _ _ boundary_gdf)|].
  done.
Qed.

(** When the file is read, the analysis returns a plan and the report
    file is written without an exception, the text the report file holds
    afterwards is the report of that plan, the same text that is printed
    between the two rules; every other file is as it was, and nothing
    goes to the error stream. *)
Theorem process_geojson_file_writes_the_report `{!RuntimeLaws R}
    h geojson_path (boundary_gdf : list Shapely.geom) (plan : Plan)
    (files' : files) :
  let report_filename :=
    PyStr.replace ".geojson" "_report.txt" geojson_path in
  read_file (host_files h) geojson_path = inr boundary_gdf ->
  fst (analyze_land boundary_gdf (host_world h)) = Ok plan ->
  write_text (host_files h) report_filename (generate_plan_report plan)
    = (None, files') ->
  exists h',
    process_geojson_file geojson_path h = (Done tt, h') /\
    file_text (host_files h') report_filename
      = Some (generate_plan_report plan) /\
    (forall other,
       other <> report_filename ->
       file_text (host_files h') other = file_text (host_files h) other) /\
    stdout (host_world h')
      = stdout (host_world h)
        ++ [ "Processing: " ++ geojson_path;
             "Analysis complete! Report saved: " ++ report_filename;
             nl ++ rule;
             generate_plan_report plan;
             rule ]%string /\
    stderr h' = stderr h.
Proof.
  intros name Hread Hrun Hwrite.
  eexists. split; [by apply (process_success _ _ boundary_gdf)|].
  cbn [after_success host_files host_world stdout stderr].
  split; [by apply (write_then_read (host_files h))|].
  split; [|done].
  intros other Hother.
  by apply (write_keeps_others (host_files h) _ name (generate_plan_report plan)).
Qed.

(** A boundary file whose path has no [.geojson] in it is overwritten:
    the name of the report is the path itself, so after a successful run
    the boundary file holds the report. *)
Theorem process_geojson_file_overwrites_input `{!RuntimeLaws R}
    h geojson_path (boundary_gdf : list Shapely.geom) (plan : Plan)
    (files' : files) :
  PyStr.contains ".geojson" geojson_path = false ->
  read_file (host_files h) geojson_path = inr boundary_gdf ->
  fst (analyze_land boundary_gdf (host_world h)) = Ok plan ->
  write_text (host_files h) geojson_path (generate_plan_report plan)
    = (None, files') ->
  exists h',
    process_geojson_file geojson_path h = (Done tt, h') /\
    host_files h' = files' /\
    file_text (host_files h') geojson_path
      = Some (generate_plan_report plan).
Proof.
  intros Hfree Hread Hrun Hwrite.
  pose proof (replace_absent ".geojson" "_report.txt" _ Hfree) as Hname.
  eexists. split.
  - apply (process_success _ _ boundary_gdf); [done|done|].
    rewrite Hname. exact Hwrite.
  - split; [done|]. by apply (write_then_read (host_files h)).
Qed.

(** For a path made of a stem free of [.geojson] followed by
    [.geojson], the report goes to the stem followed by [_report.txt],
    and the boundary file is left as it was. *)
Theorem process_geojson_file_report_beside_input `{!RuntimeLaws R}
    h (stem : string) (boundary_gdf : list Shapely.geom) (plan : Plan)
    (files' : files) :
  PyStr.contains ".geojson" stem = false ->
  read_file (host_files h) (stem ++ ".geojson") = inr boundary_gdf ->
  fst (analyze_land boundary_gdf (host_world h)) = Ok plan ->
  write_text (host_files h) (stem ++ "_report.txt")
    (generate_plan_report plan) = (None, files') ->
  exists h',
    process_geojson_file (stem ++ ".geojson") h = (Done tt, h') /\
    file_text (host_files h') (stem ++ "_report.txt")
      = Some (generate_plan_report plan) /\
    file_text (host_files h') (stem ++ ".geojson")
      = file_text (host_files h) (stem ++ ".geojson").
Proof.
  intros Hfree Hread Hrun Hwrite.
  assert (Hname : PyStr.replace ".geojson" "_report.txt" (stem ++ ".geojson")
                  = (stem ++ "_report.txt")%string).
  { pose proof (replace_first "." "geojson" "_report.txt" stem ""
                  eq_refl Hfree) as H.
    rewrite !append_empty_r in H. exact H. }
  eexists. split.
  - apply (process_success _ _ boundary_gdf); [done|done|].
    rewrite Hname. exact Hwrite.
  - cbn [after_success host_files].
    split; [by apply (write_then_read (host_files h))|].
    apply (write_keeps_others (host_files h) _ _ _ _ Hwrite).
    intros Heq. by apply String.app_inj in Heq.
Qed.

Lemma replace_twice (a b : string) :
  PyStr.contains ".geojson" a = false ->
  PyStr.contains ".geojson" b = false ->
  PyStr.replace ".geojson" "_report.txt" (a ++ ".geojson" ++ b ++ ".geojson")
  = (a ++ "_report.txt" ++ b ++ "_report.txt")%string.
Proof.
  intros Ha Hb.
  rewrite (replace_first "." "geojson" "_report.txt" a (b ++ ".geojson")
             eq_refl Ha).
  pose proof (replace_first "." "geojson" "_report.txt" b "" eq_refl Hb) as H.
  rewrite !append_empty_r in H. by rewrite H.
Qed.

(** Every [.geojson] of the path is replaced, not only the one that ends
    it: with a second one further left, as in the name of a directory,
    the report is written where both have become [_report.txt], and
    that is the path the console announces. *)
Theorem process_geojson_file_replaces_every_occurrence `{!RuntimeLaws R}
    h (a b : string) (boundary_gdf : list Shapely.geom) (plan : Plan)
    (files' : files) :
  PyStr.contains ".geojson" a = false ->
  PyStr.contains ".geojson" b = false ->
  read_file (host_files h) (a ++ ".geojson" ++ b ++ ".geojson")
    = inr boundary_gdf ->
  fst (analyze_land boundary_gdf (host_world h)) = Ok plan ->
  write_text (host_files h) (a ++ "_report.txt" ++ b ++ "_report.txt")
    (generate_plan_report plan) = (None, files') ->
  exists h',
    process_geojson_file (a ++ ".geojson" ++ b ++ ".geojson") h
      = (Done tt, h') /\
    file_text (host_files h') (a ++ "_report.txt" ++ b ++ "_report.txt")
      = Some (generate_plan_report plan) /\
    stdout (host_world h') !! S (length (stdout (host_world h)))
      = Some ("Analysis complete! Report saved: "
              ++ a ++ "_report.txt" ++ b ++ "_report.txt")%string.
Proof.
  intros Ha Hb Hread Hrun Hwrite.
  pose proof (replace_twice a b Ha Hb) as Hname.
  eexists. split.
  - apply (process_success _ _ boundary_gdf); [done|done|].
    rewrite Hname. exact Hwrite.
  - cbn [after_success host_files host_world stdout].
    split; [by apply (write_then_read (host_files h))|].
    rewrite Hname.
    rewrite lookup_app_r by lia.
    by replace (S (length (stdout (host_world h)))
                - length (stdout (host_world h)))%nat with 1%nat by lia.
Qed.

End DriverFacts.

Section MemoryFacts.

Context {G : Shapely.Geometry}.
Variable decode : string -> option (list Shapely.geom).

Lemma memory_laws : Driver.RuntimeLaws (Memory.runtime decode).
Proof.
  split; simpl; unfold Memory.write_text.
  - intros f f' [|c path] text [= <-]. apply lookup_insert_eq.
  - intros f f' [|c path] text other [= <-] Hother.
    by apply lookup_insert_ne.
Qed.

End MemoryFacts.

(** ** More worked examples *)

Section MoreWorked.

Import Lattice LatticeFacts Samples MoreSamples Driver Memory.


Lemma analyze_land_order_independent_witness :
  g_BIOGEO_REGIONS_GDF swapped_world = [ second_row; first_row ] /\
  fst (analyze_land leaning quiet_world)
    = fst (analyze_land leaning swapped_world) /\
  exists plan,
    fst (analyze_land leaning quiet_world) = Ok plan /\
    biogeographic_region plan = "Tropical_Rainforest"%string.
Proof.
  split; [reflexivity|].
  apply (analyze_land_order_independent quiet_world swapped_world leaning
           first_row [second_row]).
  - reflexivity.
  - reflexivity.
  - apply perm_swap.
  - vm_compute. discriminate.
  - vm_compute; reflexivity.
  - vm_compute; reflexivity.
  - intros r' Hr' _. apply list_elem_of_singleton in Hr'. rewrite Hr'.
    vm_compute; reflexivity.
Defined.


Lemma analyze_land_projections_ordered_witness :
  analyze_land unit_square world = (Ok unit_square_plan, world) /\
  0 <= 20000 <= 500000 /\ 500000 <= 1000000.
Proof.
  assert (Hrun : analyze_land unit_square world
                 = (Ok unit_square_plan, world))
    by (vm_compute; reflexivity).
  split; [exact Hrun|].
  destruct (@analyze_land_projections_ordered _ laws world unit_square _ Hrun)
    as (H1 & H2 & H3 & _).
  split; [split; [exact H1|exact H2]|exact H3].
Defined.

Lemma analyze_land_projections_monotone_witness :
  (Shapely.area (Shapely.union_all unit_square)
   <= Shapely.area (Shapely.union_all straddling))%Q /\
  1000000 <= 1500000 /\ 500000 <= 750000 /\ 20000 <= 30000.
Proof.
  assert (Hle : (Shapely.area (Shapely.union_all unit_square)
                 <= Shapely.area (Shapely.union_all straddling))%Q)
    by (vm_compute; discriminate).
  assert (Hrun : analyze_land unit_square world
                 = (Ok unit_square_plan, world))
    by (vm_compute; reflexivity).
  assert (Hrun' : analyze_land straddling world
                  = (Ok (plan_of world (Shapely.union_all straddling)
                           (Some "Tropical_Rainforest_Region"%string,
                            Float (overlap_formula
                                     (Shapely.union_all straddling)
                                     first_region))), world))
    by (vm_compute; reflexivity).
  split; [exact Hle|].
  destruct (analyze_land_projections_monotone world world unit_square
              straddling _ _ Hrun Hrun' Hle) as (_ & H1 & H2 & H3).
  split; [exact H1|]. split; [exact H2|exact H3].
Defined.

Lemma analyze_land_key_of_suffixed_name_witness :
  PyStr.contains "_Region" "Tropical_Rainforest" = false /\
  exists plan,
    analyze_land unit_square world = (Ok plan, world) /\
    biogeographic_region plan = "Tropical_Rainforest"%string /\
    recommended_flora plan
      = default [] (FLORA_DATABASE !! "Tropical_Rainforest"%string).
Proof.
  split; [vm_compute; reflexivity|].
  apply (analyze_land_key_of_suffixed_name world unit_square
           "Tropical_Rainforest" ""
           (Float (overlap_formula (Shapely.union_all unit_square)
                     first_region)));
    vm_compute; reflexivity.
Defined.

Lemma analyze_land_key_of_plain_name_witness :
  PyStr.contains "_Region" "Highlands" = false /\
  exists plan,
    analyze_land unit_square (renamed_world "Highlands")
      = (Ok plan, renamed_world "Highlands") /\
    biogeographic_region plan = "Highlands"%string /\
    recommended_flora plan = default [] (FLORA_DATABASE !! "Highlands"%string).
Proof.
  split; [vm_compute; reflexivity|].
  apply (analyze_land_key_of_plain_name (renamed_world "Highlands")
           unit_square "Highlands"
           (Float (overlap_formula (Shapely.union_all unit_square)
                     first_region))).
  - vm_compute; reflexivity.
  - discriminate.
  - vm_compute; reflexivity.
Defined.

Lemma analyze_land_empty_region_name_witness :
  exists plan,
    analyze_land unit_square (renamed_world "")
      = (Ok plan, renamed_world "") /\
    biogeographic_region plan = "Tropical_Savanna"%string /\
    region_overlap_percentage (simulation plan) = Float 100.
Proof.
  destruct (analyze_land_empty_region_name (renamed_world "") unit_square
              (Float (overlap_formula (Shapely.union_all unit_square)
                        first_region)))
    as (plan & Hrun & Hkey & _ & Hpct & _).
  - vm_compute; reflexivity.
  - exists plan. split; [exact Hrun|]. split; [exact Hkey|].
    rewrite Hpct. vm_compute; reflexivity.
Defined.

Lemma analyze_land_empty_boundary_witness :
  (forall g : @Shapely.geom Lattice.geometry,
     Shapely.intersects (Shapely.union_all []) g = false) /\
  fst (analyze_land [] world)
  = Ok {| biogeographic_region := "Tropical_Savanna";
          recommended_flora :=
            default [] (FLORA_DATABASE !! "Tropical_Savanna"%string);
          simulation :=
            {| land_area_hectares := Float 0;
               estimated_trees_year_5 := 0;
               estimated_chickens_year_2 := 0;
               black_soldier_fly_production_kg_week := 0;
               region_overlap_percentage := Int 0 |} |}.
Proof.
  assert (Hempty : forall g : @Shapely.geom Lattice.geometry,
             Shapely.intersects (Shapely.union_all []) g = false)
    by (intros g; reflexivity).
  split; [exact Hempty|].
  rewrite (@analyze_land_empty_boundary _ laws world Hempty). reflexivity.
Defined.

Lemma process_geojson_file_failure_keeps_files_witness :
  @Driver.read_file _ sample_runtime sample_files "missing.geojson"
    = inl "No such file or directory: missing.geojson"%string /\
  exists h',
    process_geojson_file (R := sample_runtime) "missing.geojson" sample_host
      = (Done tt, h') /\
    host_files h' = sample_files /\
    stdout (host_world h')
      = [ "Starting ClimateChic MVP Simulation (Local Machine)";
          "Processing: missing.geojson";
          "Error processing file: No such file or directory: missing.geojson"
        ]%string.
Proof.
  assert (Hread : @Driver.read_file _ sample_runtime sample_files
                    "missing.geojson"
                  = inl "No such file or directory: missing.geojson"%string)
    by (vm_compute; reflexivity).
  split; [exact Hread|].
  destruct (process_geojson_file_failure_keeps_files (R := sample_runtime)
              sample_host "missing.geojson"
              (External "No such file or directory: missing.geojson"))
    as (h' & Hrun & Hfiles & _ & _ & Hout & _).
  - left. eexists. split; [exact Hread|reflexivity].
  - exists h'. split; [exact Hrun|]. split; [exact Hfiles|exact Hout].
Defined.

Lemma process_geojson_file_zero_area_witness :
  exists h',
    process_geojson_file (R := sample_runtime) "line.geojson" sample_host
      = (Done tt, h') /\
    host_files h' = sample_files /\
    stdout (host_world h')
      = [ "Starting ClimateChic MVP Simulation (Local Machine)";
          "Processing: line.geojson";
          "Error processing file: float division by zero" ]%string.
Proof.
  apply (process_geojson_file_zero_area (R := sample_runtime) sample_host
           "line.geojson" collinear_inside); vm_compute; reflexivity.
Defined.

Lemma process_geojson_file_writes_the_report_witness :
  exists h',
    process_geojson_file (R := sample_runtime) "farm.geojson" sample_host
      = (Done tt, h') /\
    @Driver.file_text _ sample_runtime (host_files h') "farm_report.txt"
      = Some (generate_plan_report unit_square_plan) /\
    @Driver.file_text _ sample_runtime (host_files h') "farm.geojson"
      = Some "square"%string.
Proof.
  destruct (@process_geojson_file_writes_the_report _ sample_runtime
              (memory_laws decode_sample) sample_host "farm.geojson"
              unit_square unit_square_plan
              (<["farm_report.txt"%string :=
                   generate_plan_report unit_square_plan]> sample_files))
    as (h' & Hrun & Hfile & Hothers & _).
  - vm_compute; reflexivity.
  - vm_compute; reflexivity.
  - vm_compute; reflexivity.
  - exists h'. split; [exact Hrun|]. split; [exact Hfile|].
    rewrite (Hothers "farm.geojson"%string) by discriminate.
    vm_compute; reflexivity.
Defined.

Lemma process_geojson_file_overwrites_input_witness :
  @Driver.file_text _ sample_runtime sample_files "farm.json"
    = Some "square"%string /\
  exists h',
    process_geojson_file (R := sample_runtime) "farm.json" sample_host
      = (Done tt, h') /\
    @Driver.file_text _ sample_runtime (host_files h') "farm.json"
      = Some (generate_plan_report unit_square_plan).
Proof.
  split; [vm_compute; reflexivity|].
  destruct (@process_geojson_file_overwrites_input _ sample_runtime
              (memory_laws decode_sample) sample_host "farm.json"
              unit_square unit_square_plan
              (<["farm.json"%string :=
                   generate_plan_report unit_square_plan]> sample_files))
    as (h' & Hrun & _ & Hfile).
  - vm_compute; reflexivity.
  - vm_compute; reflexivity.
  - vm_compute; reflexivity.
  - vm_compute; reflexivity.
  - exists h'. split; [exact Hrun|exact Hfile].
Defined.

Lemma process_geojson_file_report_beside_input_witness :
  exists h',
    process_geojson_file (R := sample_runtime) "farm.geojson" sample_host
      = (Done tt, h') /\
    @Driver.file_text _ sample_runtime (host_files h') "farm_report.txt"
      = Some (generate_plan_report unit_square_plan) /\
    @Driver.file_text _ sample_runtime (host_files h') "farm.geojson"
      = @Driver.file_text _ sample_runtime sample_files "farm.geojson".
Proof.
  apply (@process_geojson_file_report_beside_input _ sample_runtime
           (memory_laws decode_sample) sample_host "farm"
           unit_square unit_square_plan
           (<["farm_report.txt"%string :=
                generate_plan_report unit_square_plan]> sample_files));
    vm_compute; reflexivity.
Defined.

Lemma process_geojson_file_replaces_every_occurrence_witness :
  exists h',
    process_geojson_file (R := sample_runtime) "in.geojson/farm.geojson"
      nested_host = (Done tt, h') /\
    @Driver.file_text _ sample_runtime (host_files h')
      "in_report.txt/farm_report.txt"
      = Some (generate_plan_report unit_square_plan).
Proof.
  destruct (@process_geojson_file_replaces_every_occurrence _ sample_runtime
              (memory_laws decode_sample) nested_host "in" "/farm"
              unit_square unit_square_plan
              (<["in_report.txt/farm_report.txt"%string :=
                   generate_plan_report unit_square_plan]>
                 (host_files nested_host : gmap string string)))
    as (h' & Hrun & Hfile & _).
  - vm_compute; reflexivity.
  - vm_compute; reflexivity.
  - vm_compute; reflexivity.
  - vm_compute; reflexivity.
  - vm_compute; reflexivity.
  - exists h'. split; [exact Hrun|exact Hfile].
Defined.

End MoreWorked.
